(** * The Tinkerbell bare-metal plugin driver of machine-controller

    A shallow embedding of
    [pkg/cloudprovider/provider/baremetal/plugins/tinkerbell/driver.go]
    and the properties of its four lifecycle operations and of its
    configuration resolver.

    The driver is a sequential program that talks to collaborators (the
    hardware, template and workflow clients and the controller-runtime
    client of the Tinkerbell cluster).  It is embedded as a tree of calls:
    every collaborator method the driver invokes is a constructor of [call],
    a driver method is a [Prog] that issues calls and continues with their
    answers, and [run] executes a [Prog] against any implementation of the
    collaborators, recording the calls made and the answers received. *)

From stdpp Require Import gmap strings list fin_maps.
From Stdlib Require Import Ascii.

Set Default Proof Using "Type".
Open Scope string_scope.
Open Scope list_scope.

(** ** Go values *)

(** Go's [error] values as far as the driver can tell them apart: an API
    status error with reason NotFound, any other error, and the wrapper
    [fmt.Errorf("<msg>: %w", err)] builds. *)
Inductive error : Type :=
| NotFound (msg : string)
| errorString (msg : string)
| wrapError (msg : string) (err : error).

(** [fmt.Errorf(msg + ": %w", err)] *)
Definition fmt_Errorf (msg : string) (err : error) : error := wrapError msg err.

(** [err.Error()] *)
Fixpoint Error (err : error) : string :=
  match err with
  | NotFound msg => msg
  | errorString msg => msg
  | wrapError msg err => msg +:+ ": " +:+ Error err
  end.

(** [errors.Unwrap] *)
Definition Unwrap (err : error) : option error :=
  match err with
  | wrapError _ err => Some err
  | _ => None
  end.

(** [apierrors.IsNotFound]: the reason of the first status error in the
    chain of wrapped errors is NotFound. *)
Fixpoint IsNotFound (err : error) : bool :=
  match err with
  | NotFound _ => true
  | errorString _ => false
  | wrapError _ err => IsNotFound err
  end.

(** A Go result pair [(v, err)] of which exactly one side is set. *)
Inductive result (A : Type) : Type :=
| Ok (v : A)
| Err (err : error).
Arguments Ok {A} v.
Arguments Err {A} err.

(** [types.NamespacedName] *)
Record NamespacedName : Type := mkNamespacedName {
  Name : string;
  Namespace : string
}.

#[global] Instance NamespacedName_eq_dec : EqDecision NamespacedName.
Proof. solve_decision. Defined.

#[global] Instance NamespacedName_countable : Countable NamespacedName.
Proof.
  refine (inj_countable' (fun k => (Namespace k, Name k))
                         (fun p => mkNamespacedName p.2 p.1) _).
  by intros [].
Defined.

(** The fields of [metav1.ObjectMeta] the driver reads. *)
Record ObjectMeta : Type := mkObjectMeta {
  metaName : string;
  metaUID : string
}.

(** [tinkv1alpha1.Hardware]: object name and namespace, the instance ID
    under [Spec.Metadata.Instance] (the claim), the user data and the
    resource version. *)
Record Hardware : Type := mkHardware {
  hwName : string;
  hwNamespace : string;
  hwID : string;
  hwUserData : string;
  hwResourceVersion : string
}.

#[global] Instance Hardware_eq_dec : EqDecision Hardware.
Proof. solve_decision. Defined.

(** [tinkv1alpha1.Template] *)
Record Template : Type := mkTemplate {
  tmplName : string;
  tmplNamespace : string;
  tmplOSImageURL : string;
  tmplHegelURL : string
}.

#[global] Instance Template_eq_dec : EqDecision Template.
Proof. solve_decision. Defined.

(** [tinkv1alpha1.Workflow] *)
Record Workflow : Type := mkWorkflow {
  wfName : string;
  wfNamespace : string;
  wfTemplateRef : string;
  wfHardwareRef : string
}.

(** [tinktypes.Hardware], the [plugins.Server] the driver hands out: a
    wrapper that embeds the hardware object. *)
Record Server : Type := mkServer {
  serverHardware : Hardware
}.

(** The promoted field [server.Name]. *)
Definition serverName (server : Server) : string := hwName (serverHardware server).

(** The configuration fields of [driver]; its clients are the collaborators
    the calls below go to. *)
Record driver : Type := mkDriver {
  ClusterName : string;
  OSImageURL : string;
  HegelURL : string;
  HardwareRef : NamespacedName
}.

(** ** Collaborator calls *)

(** One constructor per collaborator method the driver invokes, indexed by
    the type of its answer.  A method that takes the hardware by pointer and
    may write through it answers, when it succeeds, with the object as it is
    after the call; when it fails the driver reads at most the name of the
    object, which is taken as unchanged. *)
Inductive call : Type -> Type :=
| HardwareClient_GetHardwareWithID (uid : string) : call (result Hardware)
| HardwareClient_GetHardware (hardwareRef : NamespacedName) : call (result Hardware)
| HardwareClient_SetHardwareID (hardware : Hardware) (newID : string) : call (result Hardware)
| HardwareClient_SetHardwareUserData (hardware : Hardware) (userdata : string) : call (result Hardware)
| HardwareClient_CreateHardwareOnTinkCluster (hardware : Hardware) : call (result Hardware)
| TinkClient_Get (key : NamespacedName) : call (result Template)
| TinkClient_Delete (hardware : Hardware) : call (option error)
| TemplateClient_CreateTemplate (key : NamespacedName) (osImageURL hegelURL : string) : call (result Template)
| TemplateClient_Delete (key : NamespacedName) : call (option error)
| WorkflowClient_CreateWorkflow (name templateName : string) (server : Server) : call (option error)
| WorkflowClient_DeleteWorkflow (name namespace : string) : call (option error).

(** A program that issues calls and ends with a value. *)
Inductive Prog (R : Type) : Type :=
| Return (r : R)
| Call {X : Type} (c : call X) (k : X -> Prog R).
Arguments Return {R} r.
Arguments Call {R X} c k.

Notation "'invoke' x <~ c ;; k" := (Call c (fun x => k))
  (at level 10, x name, c at level 99, k at level 200, only parsing).

(** A call together with the answer it got. *)
Inductive event : Type :=
| Event {X : Type} (c : call X) (x : X).

(** An implementation of the collaborators over a world [W]. *)
Definition handler (W : Type) : Type := forall X : Type, call X -> W -> X * W.

(** [run h p w] executes [p] from world [w]: the value, the final world and
    the events in the order they happened. *)
Fixpoint run {W R : Type} (h : handler W) (p : Prog R) (w : W) : R * W * list event :=
  match p with
  | Return r => (r, w, [])
  | Call c k =>
      let '(x, w1) := h _ c w in
      let '(r, w2, tr) := run h (k x) w1 in
      (r, w2, Event c x :: tr)
  end.

(** ** The driver *)

(** [GetServer] *)
Definition GetServer (d : driver) (meta : ObjectMeta) : Prog (result Server) :=
  invoke r <~ HardwareClient_GetHardwareWithID (metaUID meta) ;;
  match r with
  | Err err => Return (Err err)
  | Ok targetHardware =>
      let server := mkServer targetHardware in
      Return (Ok server)
  end.

(** [ProvisionServer] *)
Definition ProvisionServer (d : driver) (meta : ObjectMeta) (userdata : string)
  : Prog (result Server) :=
  invoke r <~ HardwareClient_GetHardware (HardwareRef d) ;;
  match r with
  | Err err => Return (Err err)
  | Ok hardware =>
  invoke r <~ HardwareClient_SetHardwareID hardware (metaUID meta) ;;
  match r with
  | Err err => Return (Err err)
  | Ok hardware =>
  invoke r <~ HardwareClient_SetHardwareUserData hardware userdata ;;
  match r with
  | Err err => Return (Err err)
  | Ok hardware =>
  invoke r <~ HardwareClient_CreateHardwareOnTinkCluster hardware ;;
  match r with
  | Err err => Return (Err err)
  | Ok hardware =>
  let tmplNamespacedName := mkNamespacedName (metaName meta) "tink-stack" in
  (* the statements after the [if], reached with the template found or created *)
  let finish (template : Template) : Prog (result Server) :=
    let server := mkServer hardware in
    invoke r <~ WorkflowClient_CreateWorkflow (serverName server) (tmplName template) server ;;
    match r with
    | Some err => Return (Err err)
    | None => Return (Ok server)
    end in
  invoke r <~ TinkClient_Get tmplNamespacedName ;;
  match r with
  | Err err =>
      if negb (IsNotFound err) then
        Return (Err (fmt_Errorf "failed to get template" err))
      else
        invoke r <~ TemplateClient_CreateTemplate tmplNamespacedName (OSImageURL d) (HegelURL d) ;;
        match r with
        | Err err => Return (Err err)
        | Ok template => finish template
        end
  | Ok template => finish template
  end end end end end.

(** [Validate] *)
Definition Validate (d : driver) (spec : string) : Prog (option error) :=
  Return None.

(** [DeprovisionServer] *)
Definition DeprovisionServer (d : driver) (meta : ObjectMeta) : Prog (option error) :=
  invoke r <~ HardwareClient_GetHardwareWithID (metaUID meta) ;;
  match r with
  | Err err => Return (Some err)
  | Ok targetHardware =>
  let workflowName := hwName targetHardware +:+ "-workflow" in
  invoke r <~ WorkflowClient_DeleteWorkflow workflowName (hwNamespace targetHardware) ;;
  match r with
  | Some err => Return (Some (fmt_Errorf ("failed to delete workflow " +:+ workflowName) err))
  | None =>
  invoke r <~ TinkClient_Delete targetHardware ;;
  match r with
  | Some err =>
      Return (Some (fmt_Errorf ("failed to delete hardware " +:+ hwName targetHardware) err))
  | None =>
  invoke r <~ HardwareClient_SetHardwareID targetHardware EmptyString ;;
  match r with
  | Err err =>
      Return (Some (fmt_Errorf ("failed to reset hardware ID for " +:+ hwName targetHardware) err))
  | Ok targetHardware =>
  let tmplNamespacedName := mkNamespacedName (metaName meta) "tink-stack" in
  invoke r <~ TemplateClient_Delete tmplNamespacedName ;;
  match r with
  | Some err =>
      Return (Some (fmt_Errorf ("failed to reset hardware ID for " +:+ hwName targetHardware) err))
  | None => Return None
  end end end end end.

(** ** The configuration resolver *)

Section Resolver.
(** [providerconfigtypes.ConfigVarString] and [rest.Config] are declared
    elsewhere; the resolver reads only the [Value] field of the former. *)
Context {ConfigVarString RestConfig : Type}.
Variable Value : ConfigVarString -> string.
(** [base64.StdEncoding.DecodeString] *)
Variable DecodeString : string -> result string.
(** [clientcmd.RESTConfigFromKubeConfig] *)
Variable RESTConfigFromKubeConfig : string -> result RestConfig.

(** The fields of [tinktypes.TinkerbellPluginSpec] the resolver reads. *)
Record TinkerbellPluginSpec : Type := mkTinkerbellPluginSpec {
  specClusterName : ConfigVarString;
  specAuthKubeconfig : ConfigVarString;
  specOSImageURL : ConfigVarString;
  specHegelURL : ConfigVarString;
  specHardwareRef : NamespacedName
}.

(** [tinktypes.Config] *)
Record Config : Type := mkConfig {
  cfgKubeconfig : string;
  cfgClusterName : string;
  cfgRestConfig : RestConfig;
  cfgOSImageURL : string;
  cfgHegelURL : string
}.

(** The text [failed to get value of "<field>" field]. *)
Definition failed_to_get_value (field : string) : string :=
  "failed to get value of " +:+ String "034"%char field
    +:+ String "034"%char " field".

Definition failed_to_decode_base64 : string :=
  "failed to decode base64 encoded kubeconfig. Expected value is a base64 encoded Kubeconfig in JSON or YAML format".

Definition failed_to_decode_kubeconfig : string := "failed to decode kubeconfig".

(** The first statement of [GetConfig]: the kubeconfig, decoded from the
    embedded value or taken as the lookup gives it. *)
Definition GetConfig_kubeconfig (driverConfig : TinkerbellPluginSpec)
    (aa : ConfigVarString -> string -> result string) : result string :=
  if negb (String.eqb (Value (specAuthKubeconfig driverConfig)) EmptyString) then
    match DecodeString (Value (specAuthKubeconfig driverConfig)) with
    | Err err => Err (fmt_Errorf failed_to_decode_base64 err)
    | Ok val => Ok val
    end
  else
    match aa (specAuthKubeconfig driverConfig) "TINK_KUBECONFIG" with
    | Err err => Err (fmt_Errorf (failed_to_get_value "kubeconfig") err)
    | Ok v => Ok v
    end.

(** [GetConfig] *)
Definition GetConfig (driverConfig : TinkerbellPluginSpec)
    (aa : ConfigVarString -> string -> result string) : result Config :=
  match GetConfig_kubeconfig driverConfig aa with
  | Err err => Err err
  | Ok kubeconfig =>
  match aa (specClusterName driverConfig) "CLUSTER_NAME" with
  | Err err => Err (fmt_Errorf (failed_to_get_value "clusterName") err)
  | Ok clusterName =>
  match aa (specOSImageURL driverConfig) "OS_IMAGE_URL" with
  | Err err => Err (fmt_Errorf (failed_to_get_value "OSImageURL") err)
  | Ok osImageURL =>
  match aa (specHegelURL driverConfig) "HEGEL_URL" with
  | Err err => Err (fmt_Errorf (failed_to_get_value "HegelURL") err)
  | Ok hegelURL =>
  match RESTConfigFromKubeConfig kubeconfig with
  | Err err => Err (fmt_Errorf failed_to_decode_kubeconfig err)
  | Ok restConfig =>
      Ok (mkConfig kubeconfig clusterName restConfig osImageURL hegelURL)
  end end end end end.
End Resolver.

Arguments TinkerbellPluginSpec : clear implicits.
Arguments Config : clear implicits.
Arguments mkTinkerbellPluginSpec {ConfigVarString}.
Arguments mkConfig {RestConfig}.

(** The three ways resolution of the credential can fail. *)
Inductive failure_mode : Type :=
| BadBase64
| LookupFailed
| ClientConfigFailed.

(** Reads the failure mode off the message an error of [GetConfig] starts
    with. *)
Definition failure_mode_of (err : error) : option failure_mode :=
  match err with
  | wrapError msg _ =>
      if String.eqb msg failed_to_decode_base64 then Some BadBase64
      else if String.prefix "failed to get value of " msg then Some LookupFailed
      else if String.eqb msg failed_to_decode_kubeconfig then Some ClientConfigFailed
      else None
  | _ => None
  end.

(** ** The resource store *)

(** Modelled from the spec: the resource store (the clusters behind the
    clients are not part of the sources), one store that holds the Hardware,
    Template and Workflow objects by namespaced name. *)
Record Store : Type := mkStore {
  hardwares : gmap NamespacedName Hardware;
  templates : gmap NamespacedName Template;
  workflows : gmap NamespacedName Workflow
}.

(** The namespaced name a hardware object carries. *)
Definition hwKey (hw : Hardware) : NamespacedName :=
  mkNamespacedName (hwName hw) (hwNamespace hw).

(** Modelled from the spec: the hardware client's fetch-by-static-reference
    (client/hardware.go is missing).  Reads the record stored under the
    reference; not-found when there is none. *)
Definition store_GetHardware (hardwareRef : NamespacedName) (s : Store)
  : result Hardware * Store :=
  match hardwares s !! hardwareRef with
  | Some hw => (Ok hw, s)
  | None => (Err (NotFound "hardware not found"), s)
  end.

(** Modelled from the spec: the hardware client's fetch-by-claim-identifier
    (client/hardware.go is missing).  Answers with the first record of the
    store's listing whose claim identifier is [uid]; fails not-found if none
    matches. *)
Definition store_GetHardwareWithID (uid : string) (s : Store)
  : result Hardware * Store :=
  match list_find (fun kv : NamespacedName * Hardware => hwID kv.2 = uid)
                  (map_to_list (hardwares s)) with
  | Some (_, (_, hw)) => (Ok hw, s)
  | None => (Err (NotFound "instance not found"), s)
  end.

(** Modelled from the spec: the hardware client's set-claim-identifier
    (client/hardware.go is missing).  Sets the claim identifier on the record
    the driver holds; the store is written by persist-to-store. *)
Definition store_SetHardwareID (hardware : Hardware) (newID : string) (s : Store)
  : result Hardware * Store :=
  (Ok (mkHardware (hwName hardware) (hwNamespace hardware) newID
         (hwUserData hardware) (hwResourceVersion hardware)), s).

(** Modelled from the spec: the hardware client's set-userdata
    (client/hardware.go is missing).  Attaches the payload to the record the
    driver holds. *)
Definition store_SetHardwareUserData (hardware : Hardware) (userdata : string) (s : Store)
  : result Hardware * Store :=
  (Ok (mkHardware (hwName hardware) (hwNamespace hardware) (hwID hardware)
         userdata (hwResourceVersion hardware)), s).

(** Modelled from the spec: the hardware client's persist-to-store
    (client/hardware.go is missing), with create-or-update semantics: the
    record is written under its namespaced name whether or not one is
    there. *)
Definition store_CreateHardwareOnTinkCluster (hardware : Hardware) (s : Store)
  : result Hardware * Store :=
  (Ok hardware,
   mkStore (<[hwKey hardware := hardware]> (hardwares s)) (templates s) (workflows s)).

(** Modelled from the spec: the resource store's get of a Template by
    namespaced name (the Tinkerbell cluster behind the controller-runtime
    client is not part of the sources); not-found is told apart. *)
Definition store_TinkGet (key : NamespacedName) (s : Store) : result Template * Store :=
  match templates s !! key with
  | Some template => (Ok template, s)
  | None => (Err (NotFound "template not found"), s)
  end.

(** Modelled from the spec: the resource store's delete of a Hardware object
    (the Tinkerbell cluster behind the controller-runtime client is not part
    of the sources): removes the record under the object's namespaced name,
    not-found when there is none. *)
Definition store_TinkDelete (hardware : Hardware) (s : Store) : option error * Store :=
  match hardwares s !! hwKey hardware with
  | Some _ =>
      (None, mkStore (delete (hwKey hardware) (hardwares s)) (templates s) (workflows s))
  | None => (Some (NotFound "hardware not found"), s)
  end.

(** Modelled from the spec: the template client's get-or-create
    (client/template.go is missing): an existing template is returned
    unmodified, otherwise one is created from the OS image URL and the
    metadata-service URL. *)
Definition store_CreateTemplate (key : NamespacedName) (osImageURL hegelURL : string)
    (s : Store) : result Template * Store :=
  match templates s !! key with
  | Some template => (Ok template, s)
  | None =>
      let template := mkTemplate (Name key) (Namespace key) osImageURL hegelURL in
      (Ok template, mkStore (hardwares s) (<[key := template]> (templates s)) (workflows s))
  end.

(** Modelled from the spec: the template client's delete
    (client/template.go is missing); succeeds if the template is absent. *)
Definition store_TemplateDelete (key : NamespacedName) (s : Store) : option error * Store :=
  (None, mkStore (hardwares s) (delete key (templates s)) (workflows s)).

(** Modelled from the spec: the workflow client's create
    (client/workflow.go is missing): no pre-existence check; the workflow is
    named [<name>-workflow], lives in the hardware's namespace and refers to
    the template and the hardware by name. *)
Definition store_CreateWorkflow (name templateName : string) (server : Server) (s : Store)
  : option error * Store :=
  let hardware := serverHardware server in
  let workflow := mkWorkflow (name +:+ "-workflow") (hwNamespace hardware)
                    templateName (hwName hardware) in
  (None,
   mkStore (hardwares s) (templates s)
     (<[mkNamespacedName (wfName workflow) (wfNamespace workflow) := workflow]> (workflows s))).

(** Modelled from the spec: the workflow client's delete
    (client/workflow.go is missing); a no-op that succeeds if the workflow is
    absent. *)
Definition store_DeleteWorkflow (name namespace : string) (s : Store)
  : option error * Store :=
  (None,
   mkStore (hardwares s) (templates s) (delete (mkNamespacedName name namespace) (workflows s))).

(** Modelled from the spec: the collaborators of the driver (the packages
    client/ and the Tinkerbell cluster are missing), all over one resource
    store. *)
Definition store_handler : handler Store :=
  fun X c =>
    match c in call X return Store -> X * Store with
    | HardwareClient_GetHardwareWithID uid => store_GetHardwareWithID uid
    | HardwareClient_GetHardware hardwareRef => store_GetHardware hardwareRef
    | HardwareClient_SetHardwareID hardware newID => store_SetHardwareID hardware newID
    | HardwareClient_SetHardwareUserData hardware userdata =>
        store_SetHardwareUserData hardware userdata
    | HardwareClient_CreateHardwareOnTinkCluster hardware =>
        store_CreateHardwareOnTinkCluster hardware
    | TinkClient_Get key => store_TinkGet key
    | TinkClient_Delete hardware => store_TinkDelete hardware
    | TemplateClient_CreateTemplate key osImageURL hegelURL =>
        store_CreateTemplate key osImageURL hegelURL
    | TemplateClient_Delete key => store_TemplateDelete key
    | WorkflowClient_CreateWorkflow name templateName server =>
        store_CreateWorkflow name templateName server
    | WorkflowClient_DeleteWorkflow name namespace => store_DeleteWorkflow name namespace
    end.

(** ** What a run looks like *)

(** The collaborator methods. *)
Inductive method : Type :=
| GetHardwareWithID | GetHardware | SetHardwareID | SetHardwareUserData
| CreateHardwareOnTinkCluster | TinkGet | TinkDelete | CreateTemplate
| TemplateDelete | CreateWorkflow | DeleteWorkflow.

#[global] Instance method_eq_dec : EqDecision method.
Proof. solve_decision. Defined.

Definition method_of_call {X : Type} (c : call X) : method :=
  match c with
  | HardwareClient_GetHardwareWithID _ => GetHardwareWithID
  | HardwareClient_GetHardware _ => GetHardware
  | HardwareClient_SetHardwareID _ _ => SetHardwareID
  | HardwareClient_SetHardwareUserData _ _ => SetHardwareUserData
  | HardwareClient_CreateHardwareOnTinkCluster _ => CreateHardwareOnTinkCluster
  | TinkClient_Get _ => TinkGet
  | TinkClient_Delete _ => TinkDelete
  | TemplateClient_CreateTemplate _ _ _ => CreateTemplate
  | TemplateClient_Delete _ => TemplateDelete
  | WorkflowClient_CreateWorkflow _ _ _ => CreateWorkflow
  | WorkflowClient_DeleteWorkflow _ _ => DeleteWorkflow
  end.

Definition method_of (ev : event) : method :=
  match ev with Event c _ => method_of_call c end.

(** The error a call was answered with, if it was. *)
Definition error_of_answer {X : Type} (c : call X) : X -> option error :=
  match c in call X return X -> option error with
  | HardwareClient_GetHardwareWithID _ | HardwareClient_GetHardware _
  | HardwareClient_SetHardwareID _ _ | HardwareClient_SetHardwareUserData _ _
  | HardwareClient_CreateHardwareOnTinkCluster _ =>
      fun r => match r with Ok _ => None | Err err => Some err end
  | TinkClient_Get _ | TemplateClient_CreateTemplate _ _ _ =>
      fun r => match r with Ok _ => None | Err err => Some err end
  | TinkClient_Delete _ | TemplateClient_Delete _
  | WorkflowClient_CreateWorkflow _ _ _ | WorkflowClient_DeleteWorkflow _ _ =>
      fun r => r
  end.

(** The cause of a step failure: the error of the answer, except that a
    template lookup answered not-found is no failure (the driver goes on to
    create the template). *)
Definition step_failure (ev : event) : option error :=
  match ev with
  | Event c x =>
      match error_of_answer c x with
      | Some err =>
          match method_of_call c with
          | TinkGet => if IsNotFound err then None else Some err
          | _ => Some err
          end
      | None => None
      end
  end.

(** The namespaced name a template call addresses. *)
Definition template_key (ev : event) : option NamespacedName :=
  match ev with
  | Event (TinkClient_Get key) _ => Some key
  | Event (TemplateClient_CreateTemplate key _ _) _ => Some key
  | Event (TemplateClient_Delete key) _ => Some key
  | _ => None
  end.

(** The hardware a fetch-by-claim found. *)
Definition located_hardware (ev : event) : option Hardware :=
  match ev with
  | Event (HardwareClient_GetHardwareWithID _) (Ok hw) => Some hw
  | _ => None
  end.

(** Name and namespace a workflow deletion addresses. *)
Definition deleted_workflow (ev : event) : option (string * string) :=
  match ev with
  | Event (WorkflowClient_DeleteWorkflow name namespace) _ => Some (name, namespace)
  | _ => None
  end.

Section Steps.
Context {W : Type} (h : handler W).

(** Issued in world [w], call [c] is answered [x] and leaves world [w1]. *)
Definition answers {X : Type} (c : call X) (w : W) (x : X) (w1 : W) : Prop :=
  h X c w = (x, w1).

(** Steps 1 to 4 of Provision, in the words of the specification: fetch
    the configured hardware, set its claim identifier, attach the
    userdata, persist; the first failure ends the phase. *)
Inductive hardware_phase (d : driver) (meta : ObjectMeta) (userdata : string) (w : W)
  : result Hardware -> W -> list event -> Prop :=
| fetch_fails err w1 :
    answers (HardwareClient_GetHardware (HardwareRef d)) w (Err err) w1 ->
    hardware_phase d meta userdata w (Err err) w1
      [Event (HardwareClient_GetHardware (HardwareRef d)) (Err err)]
| claim_fails hw0 w1 err w2 :
    answers (HardwareClient_GetHardware (HardwareRef d)) w (Ok hw0) w1 ->
    answers (HardwareClient_SetHardwareID hw0 (metaUID meta)) w1 (Err err) w2 ->
    hardware_phase d meta userdata w (Err err) w2
      [Event (HardwareClient_GetHardware (HardwareRef d)) (Ok hw0);
       Event (HardwareClient_SetHardwareID hw0 (metaUID meta)) (Err err)]
| userdata_fails hw0 w1 hw1 w2 err w3 :
    answers (HardwareClient_GetHardware (HardwareRef d)) w (Ok hw0) w1 ->
    answers (HardwareClient_SetHardwareID hw0 (metaUID meta)) w1 (Ok hw1) w2 ->
    answers (HardwareClient_SetHardwareUserData hw1 userdata) w2 (Err err) w3 ->
    hardware_phase d meta userdata w (Err err) w3
      [Event (HardwareClient_GetHardware (HardwareRef d)) (Ok hw0);
       Event (HardwareClient_SetHardwareID hw0 (metaUID meta)) (Ok hw1);
       Event (HardwareClient_SetHardwareUserData hw1 userdata) (Err err)]
| persist_answers hw0 w1 hw1 w2 hw2 w3 r w4 :
    answers (HardwareClient_GetHardware (HardwareRef d)) w (Ok hw0) w1 ->
    answers (HardwareClient_SetHardwareID hw0 (metaUID meta)) w1 (Ok hw1) w2 ->
    answers (HardwareClient_SetHardwareUserData hw1 userdata) w2 (Ok hw2) w3 ->
    answers (HardwareClient_CreateHardwareOnTinkCluster hw2) w3 r w4 ->
    hardware_phase d meta userdata w r w4
      [Event (HardwareClient_GetHardware (HardwareRef d)) (Ok hw0);
       Event (HardwareClient_SetHardwareID hw0 (metaUID meta)) (Ok hw1);
       Event (HardwareClient_SetHardwareUserData hw1 userdata) (Ok hw2);
       Event (HardwareClient_CreateHardwareOnTinkCluster hw2) r].

(** Step 5 of Provision, in the words of the specification: look the
    Template named after the identity up in the fixed namespace, and create
    it from the configured URLs only if the lookup reports not-found. *)
Inductive template_phase (d : driver) (meta : ObjectMeta) (w : W)
  : result Template -> W -> list event -> Prop :=
| template_found template w1 :
    answers (TinkClient_Get (mkNamespacedName (metaName meta) "tink-stack")) w
      (Ok template) w1 ->
    template_phase d meta w (Ok template) w1
      [Event (TinkClient_Get (mkNamespacedName (metaName meta) "tink-stack")) (Ok template)]
| template_lookup_fails err w1 :
    answers (TinkClient_Get (mkNamespacedName (metaName meta) "tink-stack")) w
      (Err err) w1 ->
    IsNotFound err = false ->
    template_phase d meta w (Err (fmt_Errorf "failed to get template" err)) w1
      [Event (TinkClient_Get (mkNamespacedName (metaName meta) "tink-stack")) (Err err)]
| template_created err w1 r w2 :
    answers (TinkClient_Get (mkNamespacedName (metaName meta) "tink-stack")) w
      (Err err) w1 ->
    IsNotFound err = true ->
    answers (TemplateClient_CreateTemplate (mkNamespacedName (metaName meta) "tink-stack")
               (OSImageURL d) (HegelURL d)) w1 r w2 ->
    template_phase d meta w r w2
      [Event (TinkClient_Get (mkNamespacedName (metaName meta) "tink-stack")) (Err err);
       Event (TemplateClient_CreateTemplate (mkNamespacedName (metaName meta) "tink-stack")
                (OSImageURL d) (HegelURL d)) r].

(** Provision, in the words of the specification: steps 1 to 4, step 5,
    then the Workflow that binds the hardware and the template; the first
    failing step ends the run, and success returns the claimed hardware. *)
Inductive Provision_spec (d : driver) (meta : ObjectMeta) (userdata : string) (w : W)
  : result Server -> W -> list event -> Prop :=
| provision_hardware_fails err w1 tr1 :
    hardware_phase d meta userdata w (Err err) w1 tr1 ->
    Provision_spec d meta userdata w (Err err) w1 tr1
| provision_template_fails hardware w1 tr1 err w2 tr2 :
    hardware_phase d meta userdata w (Ok hardware) w1 tr1 ->
    template_phase d meta w1 (Err err) w2 tr2 ->
    Provision_spec d meta userdata w (Err err) w2 (tr1 ++ tr2)
| provision_workflow_fails hardware w1 tr1 template w2 tr2 err w3 :
    hardware_phase d meta userdata w (Ok hardware) w1 tr1 ->
    template_phase d meta w1 (Ok template) w2 tr2 ->
    answers (WorkflowClient_CreateWorkflow (hwName hardware) (tmplName template)
               (mkServer hardware)) w2 (Some err) w3 ->
    Provision_spec d meta userdata w (Err err) w3
      (tr1 ++ tr2 ++
       [Event (WorkflowClient_CreateWorkflow (hwName hardware) (tmplName template)
                 (mkServer hardware)) (Some err)])
| provision_succeeds hardware w1 tr1 template w2 tr2 w3 :
    hardware_phase d meta userdata w (Ok hardware) w1 tr1 ->
    template_phase d meta w1 (Ok template) w2 tr2 ->
    answers (WorkflowClient_CreateWorkflow (hwName hardware) (tmplName template)
               (mkServer hardware)) w2 None w3 ->
    Provision_spec d meta userdata w (Ok (mkServer hardware)) w3
      (tr1 ++ tr2 ++
       [Event (WorkflowClient_CreateWorkflow (hwName hardware) (tmplName template)
                 (mkServer hardware)) None]).

(** Deprovision, in the words of the specification: locate the hardware
    by claim, delete its workflow, delete the hardware record, reset the
    claim identifier, delete the template; the first failing step ends the
    run.  The first index is the cause of the failure, if a step failed. *)
Inductive Deprovision_spec (d : driver) (meta : ObjectMeta) (w : W)
  : option error -> W -> list event -> Prop :=
| locate_fails err w1 :
    answers (HardwareClient_GetHardwareWithID (metaUID meta)) w (Err err) w1 ->
    Deprovision_spec d meta w (Some err) w1
      [Event (HardwareClient_GetHardwareWithID (metaUID meta)) (Err err)]
| workflow_delete_fails hw w1 err w2 :
    answers (HardwareClient_GetHardwareWithID (metaUID meta)) w (Ok hw) w1 ->
    answers (WorkflowClient_DeleteWorkflow (hwName hw +:+ "-workflow") (hwNamespace hw))
      w1 (Some err) w2 ->
    Deprovision_spec d meta w (Some err) w2
      [Event (HardwareClient_GetHardwareWithID (metaUID meta)) (Ok hw);
       Event (WorkflowClient_DeleteWorkflow (hwName hw +:+ "-workflow") (hwNamespace hw))
         (Some err)]
| hardware_delete_fails hw w1 w2 err w3 :
    answers (HardwareClient_GetHardwareWithID (metaUID meta)) w (Ok hw) w1 ->
    answers (WorkflowClient_DeleteWorkflow (hwName hw +:+ "-workflow") (hwNamespace hw))
      w1 None w2 ->
    answers (TinkClient_Delete hw) w2 (Some err) w3 ->
    Deprovision_spec d meta w (Some err) w3
      [Event (HardwareClient_GetHardwareWithID (metaUID meta)) (Ok hw);
       Event (WorkflowClient_DeleteWorkflow (hwName hw +:+ "-workflow") (hwNamespace hw)) None;
       Event (TinkClient_Delete hw) (Some err)]
| claim_reset_fails hw w1 w2 w3 err w4 :
    answers (HardwareClient_GetHardwareWithID (metaUID meta)) w (Ok hw) w1 ->
    answers (WorkflowClient_DeleteWorkflow (hwName hw +:+ "-workflow") (hwNamespace hw))
      w1 None w2 ->
    answers (TinkClient_Delete hw) w2 None w3 ->
    answers (HardwareClient_SetHardwareID hw EmptyString) w3 (Err err) w4 ->
    Deprovision_spec d meta w (Some err) w4
      [Event (HardwareClient_GetHardwareWithID (metaUID meta)) (Ok hw);
       Event (WorkflowClient_DeleteWorkflow (hwName hw +:+ "-workflow") (hwNamespace hw)) None;
       Event (TinkClient_Delete hw) None;
       Event (HardwareClient_SetHardwareID hw EmptyString) (Err err)]
| template_delete_answers hw w1 w2 w3 hw' w4 r w5 :
    answers (HardwareClient_GetHardwareWithID (metaUID meta)) w (Ok hw) w1 ->
    answers (WorkflowClient_DeleteWorkflow (hwName hw +:+ "-workflow") (hwNamespace hw))
      w1 None w2 ->
    answers (TinkClient_Delete hw) w2 None w3 ->
    answers (HardwareClient_SetHardwareID hw EmptyString) w3 (Ok hw') w4 ->
    answers (TemplateClient_Delete (mkNamespacedName (metaName meta) "tink-stack"))
      w4 r w5 ->
    Deprovision_spec d meta w r w5
      [Event (HardwareClient_GetHardwareWithID (metaUID meta)) (Ok hw);
       Event (WorkflowClient_DeleteWorkflow (hwName hw +:+ "-workflow") (hwNamespace hw)) None;
       Event (TinkClient_Delete hw) None;
       Event (HardwareClient_SetHardwareID hw EmptyString) (Ok hw');
       Event (TemplateClient_Delete (mkNamespacedName (metaName meta) "tink-stack")) r].
End Steps.

(** What Provision returns when the step [ev] fails with [cause]: the cause
    itself, except for the template lookup, whose cause it wraps. *)
Definition provision_report (ev : event) (cause : error) : error :=
  match method_of ev with
  | TinkGet => fmt_Errorf "failed to get template" cause
  | _ => cause
  end.

(** What Deprovision returns when the step [ev] fails with [cause]: the
    cause itself for the locate step, the cause under a message that names
    the step for the workflow deletion, the hardware deletion and the claim
    reset, and the cause under some message for the template deletion. *)
Definition deprovision_report (ev : event) (cause reported : error) : Prop :=
  match ev with
  | Event (HardwareClient_GetHardwareWithID _) _ => reported = cause
  | Event (WorkflowClient_DeleteWorkflow name _) _ =>
      reported = fmt_Errorf ("failed to delete workflow " +:+ name) cause
  | Event (TinkClient_Delete hw) _ =>
      reported = fmt_Errorf ("failed to delete hardware " +:+ hwName hw) cause
  | Event (HardwareClient_SetHardwareID hw _) _ =>
      reported = fmt_Errorf ("failed to reset hardware ID for " +:+ hwName hw) cause
  | Event (TemplateClient_Delete _) _ => Unwrap reported = Some cause
  | _ => False
  end.


(** ** Concrete inputs *)

Definition hardware_1 : Hardware :=
  mkHardware "hardware-1" "default" EmptyString EmptyString "1".
Definition hardware_2 : Hardware :=
  mkHardware "hardware-2" "default" EmptyString EmptyString "1".
(** [hardware_1] once claimed by [uid-1], and once the userdata is attached. *)
Definition claimed_1 : Hardware :=
  mkHardware "hardware-1" "default" "uid-1" EmptyString "1".
Definition provisioned_1 : Hardware :=
  mkHardware "hardware-1" "default" "uid-1" "data" "1".
Definition machine_1 : ObjectMeta := mkObjectMeta "machine-1" "uid-1".
Definition driver_1 : driver := mkDriver "cluster" "http://os.img" "http://hegel" (hwKey hardware_1).
Definition driver_2 : driver := mkDriver "cluster" "http://os.img" "http://hegel" (hwKey hardware_2).

Definition empty_store : Store := mkStore ∅ ∅ ∅.
(** A pool of two unclaimed hardware records. *)
Definition pool_store : Store :=
  mkStore (<[hwKey hardware_1 := hardware_1]> (<[hwKey hardware_2 := hardware_2]> ∅)) ∅ ∅.
(** The pool, with the template of [machine_1] already there. *)
Definition templated_store : Store :=
  mkStore (hardwares pool_store)
    (<[mkNamespacedName "machine-1" "tink-stack" :=
         mkTemplate "machine-1" "tink-stack" "http://old.img" "http://hegel"]> ∅) ∅.

(** The final world of a run. *)
Definition world_after {W R : Type} (h : handler W) (p : Prog R) (w : W) : W :=
  (run h p w).1.2.

(** The pool after [machine_1] was provisioned on [hardware-1] with the
    userdata [data]. *)
Definition provisioned_store : Store :=
  world_after store_handler (ProvisionServer driver_1 machine_1 "data") pool_store.

(** The pool after [machine_1] was provisioned on [hardware-1] with the
    userdata [old]. *)
Definition claimed_store : Store :=
  world_after store_handler (ProvisionServer driver_1 machine_1 "old") pool_store.


(** The answer of a collaborator that fails with [err]. *)
Definition refusal (err : error) {X : Type} (c : call X) : X :=
  match c in call X return X with
  | HardwareClient_GetHardwareWithID _ | HardwareClient_GetHardware _
  | HardwareClient_SetHardwareID _ _ | HardwareClient_SetHardwareUserData _ _
  | HardwareClient_CreateHardwareOnTinkCluster _ => Err err
  | TinkClient_Get _ | TemplateClient_CreateTemplate _ _ _ => Err err
  | TinkClient_Delete _ | TemplateClient_Delete _
  | WorkflowClient_CreateWorkflow _ _ _ | WorkflowClient_DeleteWorkflow _ _ => Some err
  end.

(** The collaborators over the store, except that the method [m] is out of
    reach: it fails with [connection refused] and does nothing. *)
Definition refusing (m : method) : handler Store :=
  fun X c s =>
    if decide (method_of_call c = m)
    then (refusal (errorString "connection refused") c, s)
    else store_handler X c s.

(** The library functions for the examples: standard base64 with padding
    (RFC 4648; new lines are skipped), a lookup that prefers the embedded
    value and falls back to an environment, and a client configuration that
    can be built from any kubeconfig that is not empty. *)
Definition sextet (c : ascii) : option N :=
  let n := N_of_ascii c in
  if ((65 <=? n) && (n <=? 90))%N then Some (n - 65)%N
  else if ((97 <=? n) && (n <=? 122))%N then Some (n - 71)%N
  else if ((48 <=? n) && (n <=? 57))%N then Some (n + 4)%N
  else if (n =? 43)%N then Some 62%N
  else if (n =? 47)%N then Some 63%N
  else None.

Definition is_pad (c : ascii) : bool := (N_of_ascii c =? 61)%N.

Definition octet (n : N) (shift : N) : ascii :=
  ascii_of_N (N.land (N.shiftr n shift) 255).

Fixpoint decode_quanta (s : string) : option string :=
  match s with
  | EmptyString => Some EmptyString
  | String a (String b (String c (String d rest))) =>
      match sextet a, sextet b with
      | Some x, Some y =>
          if is_pad c && is_pad d then
            match rest with
            | EmptyString => Some (String (octet (N.shiftl x 18 + N.shiftl y 12) 16) EmptyString)
            | _ => None
            end
          else
            match sextet c with
            | Some z =>
                let n := (N.shiftl x 18 + N.shiftl y 12 + N.shiftl z 6)%N in
                if is_pad d then
                  match rest with
                  | EmptyString => Some (String (octet n 16) (String (octet n 8) EmptyString))
                  | _ => None
                  end
                else
                  match sextet d, decode_quanta rest with
                  | Some u, Some tail =>
                      Some (String (octet (n + u) 16)
                              (String (octet (n + u) 8) (String (octet (n + u) 0) tail)))
                  | _, _ => None
                  end
            | None => None
            end
      | _, _ => None
      end
  | _ => None
  end.

Fixpoint skip_newlines (s : string) : string :=
  match s with
  | EmptyString => EmptyString
  | String c rest =>
      if ((N_of_ascii c =? 10) || (N_of_ascii c =? 13))%N then skip_newlines rest
      else String c (skip_newlines rest)
  end.

Definition StdEncoding_DecodeString (s : string) : result string :=
  match decode_quanta (skip_newlines s) with
  | Some val => Ok val
  | None => Err (errorString "illegal base64 data")
  end.

Definition lookup_in (env : string -> option string) (configVar : string) (envVarName : string)
  : result string :=
  if negb (String.eqb configVar EmptyString) then Ok configVar
  else match env envVarName with
       | Some v => Ok v
       | None => Err (errorString "value not found")
       end.

Definition kubeconfig_only (kubeconfig : string) : result string :=
  if String.eqb kubeconfig EmptyString then Err (errorString "empty kubeconfig")
  else Ok ("rest config of " +:+ kubeconfig).

(** A specification with the kubeconfig embedded, base64 of [hello]. *)
Definition embedded_spec : TinkerbellPluginSpec string :=
  mkTinkerbellPluginSpec "cluster" "aGVsbG8=" "http://os.img" "http://hegel"
    (hwKey hardware_1).
(** One whose embedded kubeconfig is not base64. *)
Definition broken_spec : TinkerbellPluginSpec string :=
  mkTinkerbellPluginSpec "cluster" "not base64!" "http://os.img" "http://hegel"
    (hwKey hardware_1).
(** One that leaves the kubeconfig to the lookup. *)
Definition indirect_spec : TinkerbellPluginSpec string :=
  mkTinkerbellPluginSpec "cluster" EmptyString "http://os.img" "http://hegel"
    (hwKey hardware_1).

Definition env_with_kubeconfig (name : string) : option string :=
  if String.eqb name "TINK_KUBECONFIG" then Some "aGVsbG8=" else None.
Definition env_empty (name : string) : option string := None.

(** An environment in which every variable is set to the empty string. *)
Definition env_blank (name : string) : option string := Some EmptyString.


(** ** The constructor *)

Section Constructor.
(** The client types and their constructors are declared in other
    packages; the constructor of the driver only passes values on. *)
Context {ConfigVarString RestConfig Client MetadataConfig MetadataClientT : Type}.
Context {HardwareClientT WorkflowClientT TemplateClientT : Type}.
Variable Value : ConfigVarString -> string.
(** [ctrlruntimeclient.New] with the global scheme *)
Variable ctrlruntimeclient_New : RestConfig -> result Client.
(** [config.GetConfig], the configuration of the cluster the controller
    runs in *)
Variable config_GetConfig : result RestConfig.
(** [metadataclient.NewMetadataClient] *)
Variable NewMetadataClient : MetadataConfig -> result MetadataClientT.
(** [client.NewHardwareClient], [client.NewWorkflowClient] and
    [client.NewTemplateClient] *)
Variable NewHardwareClient : Client -> Client -> HardwareClientT.
Variable NewWorkflowClient : Client -> WorkflowClientT.
Variable NewTemplateClient : Client -> TemplateClientT.

(** The [driver] struct in full: the configuration fields above and the
    clients. *)
Record tinkerbellDriver : Type := mkTinkerbellDriver {
  settings : driver;
  TinkClient : Client;
  KubeClient : Client;
  MetadataClient : MetadataClientT;
  HardwareClient : HardwareClientT;
  WorkflowClient : WorkflowClientT;
  TemplateClient : TemplateClientT
}.

(** [NewTinkerbellDriver] *)
Definition NewTinkerbellDriver (mdConfig : MetadataConfig) (tinkConfig : Config RestConfig)
    (tinkSpec : TinkerbellPluginSpec ConfigVarString) : result tinkerbellDriver :=
  match ctrlruntimeclient_New (cfgRestConfig tinkConfig) with
  | Err err => Err (fmt_Errorf "failed to create k8s client" err)
  | Ok tinkClient =>
  match config_GetConfig with
  | Err err => Err (fmt_Errorf "failed to get Kubernetes config" err)
  | Ok cfg =>
  match ctrlruntimeclient_New cfg with
  | Err err => Err (fmt_Errorf "failed to create Kubernetes client" err)
  | Ok k8sClient =>
  match NewMetadataClient mdConfig with
  | Err err => Err err
  | Ok mdClient =>
      let hwClient := NewHardwareClient k8sClient tinkClient in
      let wkClient := NewWorkflowClient tinkClient in
      let tmplClient := NewTemplateClient tinkClient in
      let d :=
        {| settings :=
             {| ClusterName := Value (specClusterName tinkSpec);
                HardwareRef := specHardwareRef tinkSpec;
                OSImageURL := Value (specOSImageURL tinkSpec);
                HegelURL := Value (specHegelURL tinkSpec) |};
           TinkClient := tinkClient;
           KubeClient := k8sClient;
           MetadataClient := mdClient;
           HardwareClient := hwClient;
           WorkflowClient := wkClient;
           TemplateClient := tmplClient |} in
      Ok d
  end end end end.
End Constructor.

Arguments tinkerbellDriver : clear implicits.



(** The methods Provision has no use for, and those Deprovision has no use
    for. *)
Definition not_for_provision : list method :=
  [GetHardwareWithID; TinkDelete; TemplateDelete; DeleteWorkflow].
Definition not_for_deprovision : list method :=
  [GetHardware; SetHardwareUserData; CreateHardwareOnTinkCluster; TinkGet;
   CreateTemplate; CreateWorkflow].

(** Client constructors for the examples: a client is named after its
    configuration and cannot be built from an empty one. *)
Definition client_of (restConfig : string) : result string :=
  if String.eqb restConfig EmptyString then Err (errorString "no configuration")
  else Ok ("client of " +:+ restConfig).
Definition metadata_client_of (mdConfig : string) : result string :=
  if String.eqb mdConfig EmptyString then Err (errorString "no metadata endpoint")
  else Ok ("metadata client of " +:+ mdConfig).

(** A specification that leaves the OS image and the metadata-service URL
    to the environment. *)
Definition sparse_spec : TinkerbellPluginSpec string :=
  mkTinkerbellPluginSpec "cluster" "aGVsbG8=" EmptyString EmptyString (hwKey hardware_1).
(** One without a cluster name, a kubeconfig or a metadata-service URL, and
    one that lacks only the metadata-service URL. *)
Definition nameless_spec : TinkerbellPluginSpec string :=
  mkTinkerbellPluginSpec EmptyString EmptyString "http://os.img" EmptyString (hwKey hardware_1).
Definition hegelless_spec : TinkerbellPluginSpec string :=
  mkTinkerbellPluginSpec "cluster" "aGVsbG8=" "http://os.img" EmptyString (hwKey hardware_1).


(** * Properties *)

(** ** Running a program *)

Lemma run_Return {W R : Type} (h : handler W) (r : R) (w : W) :
  run h (Return r) w = (r, w, []).
Proof. reflexivity. Qed.

Lemma run_Call {W R X : Type} (h : handler W) (c : call X) (k : X -> Prog R) (w : W) :
  run h (Call c k) w =
  (let '(r, w2, tr) := run h (k (h X c w).1) (h X c w).2 in (r, w2, Event c (h X c w).1 :: tr)).
Proof. simpl. by destruct (h X c w). Qed.

Lemma run_Call_answers {W R X : Type} (h : handler W) (c : call X) (k : X -> Prog R)
    (w : W) (x : X) (w1 : W) :
  h X c w = (x, w1) ->
  run h (Call c k) w = (let '(r, w2, tr) := run h (k x) w1 in (r, w2, Event c x :: tr)).
Proof. intros H. simpl. by rewrite H. Qed.

(** Names the answer of the next call of the run in the goal and splits it
    into success and failure. *)
Ltac next_answer :=
  rewrite run_Call;
  match goal with
  | |- context [?h ?X ?c ?w] =>
      lazymatch type of h with
      | handler _ =>
          let x := fresh "x" in
          let w' := fresh "w" in
          let E := fresh "E" in
          destruct (h X c w) as [x w'] eqn:E; cbn [fst snd];
          destruct x
      end
  end.

(** Runs the program of the goal to its end, one case per way the
    collaborators can answer. *)
Ltac run_cases :=
  repeat first
    [ rewrite run_Return
    | next_answer
    | match goal with
      | |- context [IsNotFound ?err] => destruct (IsNotFound err) eqn:?; cbn [negb]
      end ];
  cbn [fst snd].

(** Closes a phase of the step relations from the answers in the context. *)
Ltac phase_done :=
  first
    [ eapply persist_answers; eassumption
    | eapply template_found; eassumption
    | eapply template_lookup_fails; eassumption
    | eapply template_created; eassumption ].

(** C1: Provision fetches the configured hardware, sets its claim, attaches
    the userdata, persists it, looks the template up and creates it only on
    not-found, and creates the workflow, in this order; it stops at the first
    failing step and on success returns the claimed hardware. *)
Theorem ProvisionServer_steps {W : Type} (h : handler W) d meta userdata w :
  Provision_spec h d meta userdata w
    (run h (ProvisionServer d meta userdata) w).1.1
    (run h (ProvisionServer d meta userdata) w).1.2
    (run h (ProvisionServer d meta userdata) w).2.
Proof.
  unfold ProvisionServer, serverName.
  run_cases.
  all: first
    [ apply provision_hardware_fails; econstructor; eassumption
    | eapply (provision_template_fails h d meta userdata w _ _ [_; _; _; _]);
        phase_done
    | eapply (provision_workflow_fails h d meta userdata w _ _ [_; _; _; _] _ _ [_]);
        [phase_done | phase_done | eassumption]
    | eapply (provision_workflow_fails h d meta userdata w _ _ [_; _; _; _] _ _ [_; _]);
        [phase_done | phase_done | eassumption]
    | eapply (provision_succeeds h d meta userdata w _ _ [_; _; _; _] _ _ [_]);
        [phase_done | phase_done | eassumption]
    | eapply (provision_succeeds h d meta userdata w _ _ [_; _; _; _] _ _ [_; _]);
        [phase_done | phase_done | eassumption] ].
Qed.

(** C2: Deprovision locates the hardware by claim, deletes its workflow,
    deletes the hardware record, resets the claim and deletes the template,
    in this order, and stops at the first failing step: it returns an error
    exactly when a step failed. *)
Theorem DeprovisionServer_steps {W : Type} (h : handler W) d meta w :
  exists cause : option error,
    Deprovision_spec h d meta w cause
      (run h (DeprovisionServer d meta) w).1.2
      (run h (DeprovisionServer d meta) w).2
    /\ match cause with
       | Some err =>
           exists reported, (run h (DeprovisionServer d meta) w).1.1 = Some reported
             /\ (reported = err \/ Unwrap reported = Some err)
       | None => (run h (DeprovisionServer d meta) w).1.1 = None
       end.
Proof.
  unfold DeprovisionServer.
  run_cases.
  all: eexists; split; [econstructor; eassumption | cbn; eauto].
Qed.

(** A full cycle on the pool: Provision claims [hardware-1] and creates the
    template and the workflow, Deprovision removes all three. *)
Example ProvisionServer_on_pool :
  (run store_handler (ProvisionServer driver_1 machine_1 "data") pool_store).1.1
    = Ok (mkServer provisioned_1)
  /\ map method_of (run store_handler (ProvisionServer driver_1 machine_1 "data") pool_store).2
     = [GetHardware; SetHardwareID; SetHardwareUserData; CreateHardwareOnTinkCluster;
        TinkGet; CreateTemplate; CreateWorkflow].
Proof. vm_compute. auto. Qed.

Example DeprovisionServer_on_provisioned :
  run store_handler (DeprovisionServer driver_1 machine_1) provisioned_store
    = (None,
       mkStore (<[hwKey hardware_2 := hardware_2]> ∅) ∅ ∅,
       [Event (HardwareClient_GetHardwareWithID "uid-1") (Ok provisioned_1);
        Event (WorkflowClient_DeleteWorkflow "hardware-1-workflow" "default") None;
        Event (TinkClient_Delete provisioned_1) None;
        Event (HardwareClient_SetHardwareID provisioned_1 EmptyString)
          (Ok (mkHardware "hardware-1" "default" EmptyString "data" "1"));
        Event (TemplateClient_Delete (mkNamespacedName "machine-1" "tink-stack")) None]).
Proof. vm_compute. reflexivity. Qed.

(** ** Provision that cannot fetch its hardware *)

(** C7: when the hardware fetch fails, Provision returns that failure, the
    fetch is the only call it has issued, and the world is as the failed
    fetch left it. *)
Theorem ProvisionServer_fetch_fails {W : Type} (h : handler W) d meta userdata w err w1 :
  answers h (HardwareClient_GetHardware (HardwareRef d)) w (Err err) w1 ->
  run h (ProvisionServer d meta userdata) w =
    (Err err, w1, [Event (HardwareClient_GetHardware (HardwareRef d)) (Err err)]).
Proof.
  intros H. unfold ProvisionServer. by rewrite (run_Call_answers _ _ _ _ _ _ H).
Qed.

Lemma ProvisionServer_fetch_fails_witness :
  run store_handler (ProvisionServer driver_1 machine_1 "data") empty_store =
    (Err (NotFound "hardware not found"), empty_store,
     [Event (HardwareClient_GetHardware (HardwareRef driver_1))
        (Err (NotFound "hardware not found"))]).
Proof.
  apply (ProvisionServer_fetch_fails store_handler driver_1 machine_1 "data" empty_store).
  reflexivity.
Defined.

(** ** Provision with the template in place *)

(** C8: when steps 1 to 4 succeed and the lookup finds the template,
    Provision issues no template creation: the lookup is followed at once by
    the creation of the workflow, which names the template found, and when
    that succeeds the claimed hardware is returned. *)
Theorem ProvisionServer_existing_template {W : Type} (h : handler W)
    d meta userdata w hardware w4 tr1 template w5 :
  hardware_phase h d meta userdata w (Ok hardware) w4 tr1 ->
  answers h (TinkClient_Get (mkNamespacedName (metaName meta) "tink-stack")) w4
    (Ok template) w5 ->
  exists (r : option error) (w6 : W),
    answers h (WorkflowClient_CreateWorkflow (hwName hardware) (tmplName template)
                 (mkServer hardware)) w5 r w6
    /\ run h (ProvisionServer d meta userdata) w =
         (match r with Some err => Err err | None => Ok (mkServer hardware) end, w6,
          (tr1 ++
           [Event (TinkClient_Get (mkNamespacedName (metaName meta) "tink-stack"))
              (Ok template);
            Event (WorkflowClient_CreateWorkflow (hwName hardware) (tmplName template)
                     (mkServer hardware)) r])%list)
    /\ Forall (fun ev => method_of ev <> CreateTemplate)
         (run h (ProvisionServer d meta userdata) w).2.
Proof.
  intros Hhw Htmpl. unfold answers in Htmpl.
  inversion Hhw as [| | | hw0 w1 hw1 w2 hw2 w3 r w4' H1 H2 H3 H4]; subst.
  unfold answers in *.
  destruct (h _ (WorkflowClient_CreateWorkflow (hwName hardware) (tmplName template)
                   (mkServer hardware)) w5) as [r w6] eqn:Hwf.
  exists r, w6. split; [done |].
  assert (run h (ProvisionServer d meta userdata) w =
         (match r with Some err => Err err | None => Ok (mkServer hardware) end, w6,
          [Event (HardwareClient_GetHardware (HardwareRef d)) (Ok hw0);
           Event (HardwareClient_SetHardwareID hw0 (metaUID meta)) (Ok hw1);
           Event (HardwareClient_SetHardwareUserData hw1 userdata) (Ok hw2);
           Event (HardwareClient_CreateHardwareOnTinkCluster hw2) (Ok hardware);
           Event (TinkClient_Get (mkNamespacedName (metaName meta) "tink-stack")) (Ok template);
           Event (WorkflowClient_CreateWorkflow (hwName hardware) (tmplName template)
                    (mkServer hardware)) r])) as ->.
  { unfold ProvisionServer, serverName.
    rewrite (run_Call_answers _ _ _ _ _ _ H1), (run_Call_answers _ _ _ _ _ _ H2),
      (run_Call_answers _ _ _ _ _ _ H3), (run_Call_answers _ _ _ _ _ _ H4),
      (run_Call_answers _ _ _ _ _ _ Htmpl).
    cbn [serverHardware]. rewrite (run_Call_answers _ _ _ _ _ _ Hwf).
    by destruct r. }
  split; [done |]. cbn. repeat constructor; discriminate.
Qed.

Lemma ProvisionServer_existing_template_witness :
  (run store_handler (ProvisionServer driver_1 machine_1 "data") templated_store).1.1 =
    Ok (mkServer provisioned_1)
  /\ Forall (fun ev => method_of ev <> CreateTemplate)
       (run store_handler (ProvisionServer driver_1 machine_1 "data") templated_store).2.
Proof.
  destruct (ProvisionServer_existing_template store_handler driver_1 machine_1 "data"
              templated_store provisioned_1
              (mkStore (<[hwKey hardware_1 := provisioned_1]> (hardwares templated_store))
                       (templates templated_store) ∅)
              [Event (HardwareClient_GetHardware (HardwareRef driver_1)) (Ok hardware_1);
               Event (HardwareClient_SetHardwareID hardware_1 "uid-1") (Ok claimed_1);
               Event (HardwareClient_SetHardwareUserData claimed_1 "data") (Ok provisioned_1);
               Event (HardwareClient_CreateHardwareOnTinkCluster provisioned_1)
                 (Ok provisioned_1)]
              (mkTemplate "machine-1" "tink-stack" "http://old.img" "http://hegel")
              (mkStore (<[hwKey hardware_1 := provisioned_1]> (hardwares templated_store))
                       (templates templated_store) ∅))
    as (r & w6 & Hwf & Hrun & Hno).
  - eapply (persist_answers store_handler driver_1 machine_1 "data" templated_store
              hardware_1 templated_store claimed_1 templated_store
              provisioned_1 templated_store);
      reflexivity.
  - reflexivity.
  - split; [| exact Hno].
    rewrite Hrun. unfold answers in Hwf. cbn [store_handler store_CreateWorkflow] in Hwf.
    injection Hwf as <- _. reflexivity.
Defined.

(** The template found, created earlier from another image, is still the
    one in the store after Provision. *)
Example ProvisionServer_keeps_template :
  templates (world_after store_handler (ProvisionServer driver_1 machine_1 "data")
               templated_store)
    = templates templated_store
  /\ map method_of
       (run store_handler (ProvisionServer driver_1 machine_1 "data") templated_store).2
     = [GetHardware; SetHardwareID; SetHardwareUserData; CreateHardwareOnTinkCluster;
        TinkGet; CreateWorkflow].
Proof. vm_compute. auto. Qed.

(** ** Validate *)

(** C9: Validate returns success for every input, calls no collaborator and
    leaves the world as it is. *)
Theorem Validate_passes {W : Type} (h : handler W) d spec w :
  run h (Validate d spec) w = (None, w, []).
Proof. reflexivity. Qed.

(** ** How the objects are addressed *)

(** Splits membership in the explicit trace of the goal's context into one
    case per event. *)
Ltac each_event H :=
  repeat (apply elem_of_cons in H as [-> | H]); [.. | by apply elem_of_nil in H].

(** C10: Provision and Deprovision address the template by the same key,
    the machine's name in the namespace tink-stack, whatever the hardware's
    namespace is.  Once the hardware steps have succeeded Provision looks
    the template up under this key, and creates it under this key when the
    lookup reports not-found; once its first four steps have succeeded
    Deprovision deletes the template under this key; no template call of
    either uses another key.  The workflow is deleted, right after the
    hardware is located, under the name [<hardware-name>-workflow] in the
    hardware's own namespace. *)
Theorem template_key_shared {W W' : Type} (h : handler W) (h' : handler W')
    d d' meta userdata w w' :
  (forall ev key,
      ev ∈ (run h (ProvisionServer d meta userdata) w).2 ->
      template_key ev = Some key ->
      key = mkNamespacedName (metaName meta) "tink-stack")
  /\ (forall ev key,
      ev ∈ (run h' (DeprovisionServer d' meta) w').2 ->
      template_key ev = Some key ->
      key = mkNamespacedName (metaName meta) "tink-stack")
  /\ (forall ev ev' hw name namespace,
      ev ∈ (run h' (DeprovisionServer d' meta) w').2 ->
      ev' ∈ (run h' (DeprovisionServer d' meta) w').2 ->
      located_hardware ev = Some hw ->
      deleted_workflow ev' = Some (name, namespace) ->
      name = hwName hw +:+ "-workflow" /\ namespace = hwNamespace hw)
  /\ (forall hardware w4 tr1,
      hardware_phase h d meta userdata w (Ok hardware) w4 tr1 ->
      exists answer rest,
        (run h (ProvisionServer d meta userdata) w).2 =
          tr1 ++ Event (TinkClient_Get (mkNamespacedName (metaName meta) "tink-stack")) answer
                 :: rest
        /\ forall err,
             answer = Err err -> IsNotFound err = true ->
             exists created rest',
               rest = Event (TemplateClient_CreateTemplate
                               (mkNamespacedName (metaName meta) "tink-stack")
                               (OSImageURL d) (HegelURL d)) created :: rest')
  /\ (forall hw w1,
      answers h' (HardwareClient_GetHardwareWithID (metaUID meta)) w' (Ok hw) w1 ->
      exists answer rest,
        (run h' (DeprovisionServer d' meta) w').2 =
          Event (HardwareClient_GetHardwareWithID (metaUID meta)) (Ok hw)
          :: Event (WorkflowClient_DeleteWorkflow (hwName hw +:+ "-workflow")
                      (hwNamespace hw)) answer
          :: rest)
  /\ (forall hw w1 w2 w3 hw' w4,
      answers h' (HardwareClient_GetHardwareWithID (metaUID meta)) w' (Ok hw) w1 ->
      answers h' (WorkflowClient_DeleteWorkflow (hwName hw +:+ "-workflow") (hwNamespace hw))
        w1 None w2 ->
      answers h' (TinkClient_Delete hw) w2 None w3 ->
      answers h' (HardwareClient_SetHardwareID hw EmptyString) w3 (Ok hw') w4 ->
      exists answer,
        (run h' (DeprovisionServer d' meta) w').2 =
          [Event (HardwareClient_GetHardwareWithID (metaUID meta)) (Ok hw);
           Event (WorkflowClient_DeleteWorkflow (hwName hw +:+ "-workflow") (hwNamespace hw))
             None;
           Event (TinkClient_Delete hw) None;
           Event (HardwareClient_SetHardwareID hw EmptyString) (Ok hw');
           Event (TemplateClient_Delete (mkNamespacedName (metaName meta) "tink-stack"))
             answer]).
Proof.
  repeat apply conj.
  - intros ev key. unfold ProvisionServer, serverName. run_cases.
    all: intros Hin Hkey; each_event Hin; cbn in Hkey; congruence.
  - intros ev key. unfold DeprovisionServer. run_cases.
    all: intros Hin Hkey; each_event Hin; cbn in Hkey; congruence.
  - intros ev ev' hw name namespace. unfold DeprovisionServer. run_cases.
    all: intros Hin Hin' Hloc Hdel; each_event Hin; cbn in Hloc; try discriminate Hloc.
    all: each_event Hin'; cbn in Hdel; try discriminate Hdel.
    all: injection Hloc as <-; injection Hdel as <- <-; done.
  - intros hardware w4 tr1 Hhw.
    inversion Hhw as [| | | hw0 w1 hw1 w2 hw2 w3 r w4' H1 H2 H3 H4]; subst.
    unfold answers in *. unfold ProvisionServer, serverName.
    rewrite (run_Call_answers _ _ _ _ _ _ H1), (run_Call_answers _ _ _ _ _ _ H2),
      (run_Call_answers _ _ _ _ _ _ H3), (run_Call_answers _ _ _ _ _ _ H4).
    run_cases.
    all: eexists _, _; split; [reflexivity |].
    all: intros err' Hanswer Hnf; simplify_eq; try congruence.
    all: by eexists _, _.
  - intros hw w1 H1. unfold answers in H1. unfold DeprovisionServer.
    rewrite (run_Call_answers _ _ _ _ _ _ H1). run_cases.
    all: by eexists _, _.
  - intros hw w1 w2 w3 hw' w4 H1 H2 H3 H4. unfold answers in *. unfold DeprovisionServer.
    rewrite (run_Call_answers _ _ _ _ _ _ H1), (run_Call_answers _ _ _ _ _ _ H2),
      (run_Call_answers _ _ _ _ _ _ H3), (run_Call_answers _ _ _ _ _ _ H4).
    run_cases.
    all: by eexists.
Qed.

Lemma template_key_shared_witness :
  mkNamespacedName "machine-1" "tink-stack" = mkNamespacedName (metaName machine_1) "tink-stack"
  /\ ("hardware-1-workflow" = hwName provisioned_1 +:+ "-workflow"
      /\ "default" = hwNamespace provisioned_1)
  /\ (exists answer rest,
        (run store_handler (ProvisionServer driver_1 machine_1 "data") pool_store).2 =
          [Event (HardwareClient_GetHardware (HardwareRef driver_1)) (Ok hardware_1);
           Event (HardwareClient_SetHardwareID hardware_1 "uid-1") (Ok claimed_1);
           Event (HardwareClient_SetHardwareUserData claimed_1 "data") (Ok provisioned_1);
           Event (HardwareClient_CreateHardwareOnTinkCluster provisioned_1)
             (Ok provisioned_1)]
          ++ Event (TinkClient_Get (mkNamespacedName "machine-1" "tink-stack")) answer
             :: rest)
  /\ (exists answer,
        (run store_handler (DeprovisionServer driver_1 machine_1) provisioned_store).2 =
          [Event (HardwareClient_GetHardwareWithID "uid-1") (Ok provisioned_1);
           Event (WorkflowClient_DeleteWorkflow "hardware-1-workflow" "default") None;
           Event (TinkClient_Delete provisioned_1) None;
           Event (HardwareClient_SetHardwareID provisioned_1 EmptyString)
             (Ok (mkHardware "hardware-1" "default" EmptyString "data" "1"));
           Event (TemplateClient_Delete (mkNamespacedName "machine-1" "tink-stack")) answer]).
Proof.
  destruct (template_key_shared store_handler store_handler driver_1 driver_1 machine_1 "data"
              pool_store provisioned_store)
    as (Hprovision & _ & Hworkflow & Hlookup & _ & Hdelete).
  split; [| split; [| split]].
  - apply (Hprovision
             (Event (TinkClient_Get (mkNamespacedName "machine-1" "tink-stack"))
                (Err (NotFound "template not found")))).
    + vm_compute. repeat first [apply list_elem_of_here | apply list_elem_of_further].
    + reflexivity.
  - apply (Hworkflow
             (Event (HardwareClient_GetHardwareWithID "uid-1") (Ok provisioned_1))
             (Event (WorkflowClient_DeleteWorkflow "hardware-1-workflow" "default") None)).
    + vm_compute. repeat first [apply list_elem_of_here | apply list_elem_of_further].
    + vm_compute. repeat first [apply list_elem_of_here | apply list_elem_of_further].
    + reflexivity.
    + reflexivity.
  - destruct (Hlookup provisioned_1
                (mkStore (<[hwKey hardware_1 := provisioned_1]> (hardwares pool_store)) ∅ ∅)
                [Event (HardwareClient_GetHardware (HardwareRef driver_1)) (Ok hardware_1);
                 Event (HardwareClient_SetHardwareID hardware_1 "uid-1") (Ok claimed_1);
                 Event (HardwareClient_SetHardwareUserData claimed_1 "data")
                   (Ok provisioned_1);
                 Event (HardwareClient_CreateHardwareOnTinkCluster provisioned_1)
                   (Ok provisioned_1)])
      as (answer & rest & Htrace & _).
    + eapply (persist_answers store_handler driver_1 machine_1 "data" pool_store
                hardware_1 pool_store claimed_1 pool_store provisioned_1 pool_store);
        reflexivity.
    + by exists answer, rest.
  - eapply (Hdelete provisioned_1 _ _ _
              (mkHardware "hardware-1" "default" EmptyString "data" "1")).
    all: vm_compute; reflexivity.
Defined.

(** ** Failures *)

(** One case per position of [ev] in the explicit trace [tr] of the
    hypothesis [H : tr = pre ++ ev :: post]. *)
Ltac each_position H :=
  let rec go :=
    lazymatch type of H with
    | [] = ?pre ++ _ :: _ => by destruct pre
    | _ :: _ = ?pre ++ _ :: _ =>
        destruct pre as [| ? pre]; cbn [app] in H;
        [ injection H as <- H
        | injection H as <- H; go ]
    end in
  go.

(** Keeps the positions at which the step failed, with its cause. *)
Ltac failed_here Hfail :=
  cbn in Hfail;
  repeat match goal with
         | E : IsNotFound _ = _ |- _ => rewrite E in Hfail
         end;
  first [ discriminate Hfail | injection Hfail as <- ].

(** C5, as the code has it: when a step of Provision or Deprovision fails,
    no further step is executed and the error returned carries the cause.
    Provision returns the cause as it is, except that it wraps the cause of
    a failed template lookup; Deprovision returns the cause of a failed
    locate step as it is and wraps the cause of every later step, naming the
    step for the workflow deletion, the hardware deletion and the claim
    reset. *)
Theorem step_failure_ends_run {W : Type} (h : handler W) d meta userdata w :
  (forall pre ev post cause,
      (run h (ProvisionServer d meta userdata) w).2 = pre ++ ev :: post ->
      step_failure ev = Some cause ->
      post = []
      /\ (run h (ProvisionServer d meta userdata) w).1.1 = Err (provision_report ev cause))
  /\ (forall pre ev post cause,
      (run h (DeprovisionServer d meta) w).2 = pre ++ ev :: post ->
      step_failure ev = Some cause ->
      post = []
      /\ exists reported,
           (run h (DeprovisionServer d meta) w).1.1 = Some reported
           /\ deprovision_report ev cause reported).
Proof.
  split.
  - intros pre ev post cause. unfold ProvisionServer, serverName. run_cases.
    all: intros H Hfail; each_position H; failed_here Hfail.
    all: subst post; split; reflexivity.
  - intros pre ev post cause. unfold DeprovisionServer. run_cases.
    all: intros H Hfail; each_position H; failed_here Hfail.
    all: subst post; split; [reflexivity | eexists; split; reflexivity].
Qed.

Lemma step_failure_ends_run_witness :
  (run store_handler (ProvisionServer driver_1 machine_1 "data") empty_store).1.1 =
    Err (NotFound "hardware not found")
  /\ exists reported,
       (run store_handler (DeprovisionServer driver_1 machine_1) empty_store).1.1 =
         Some reported
       /\ reported = NotFound "instance not found".
Proof.
  destruct (step_failure_ends_run store_handler driver_1 machine_1 "data" empty_store)
    as [Hprovision Hdeprovision].
  split.
  - destruct (Hprovision []
                (Event (HardwareClient_GetHardware (HardwareRef driver_1))
                   (Err (NotFound "hardware not found")))
                [] (NotFound "hardware not found")) as [_ Hreturned].
    + reflexivity.
    + reflexivity.
    + exact Hreturned.
  - destruct (Hdeprovision []
                (Event (HardwareClient_GetHardwareWithID "uid-1")
                   (Err (NotFound "instance not found")))
                [] (NotFound "instance not found")) as [_ Hreturned].
    + reflexivity.
    + reflexivity.
    + exact Hreturned.
Defined.

(** C5 as the specification words it fails: when the hardware fetch of
    Provision is refused, Provision returns the cause itself, an error that
    wraps nothing and whose text names no step; when instead the claim step
    is refused, the error returned is the same. *)
Lemma step_failure_not_wrapped :
  (run (refusing GetHardware) (ProvisionServer driver_1 machine_1 "data") pool_store).1.1
    = Err (errorString "connection refused")
  /\ map method_of
       (run (refusing GetHardware) (ProvisionServer driver_1 machine_1 "data") pool_store).2
     = [GetHardware]
  /\ (run (refusing SetHardwareID) (ProvisionServer driver_1 machine_1 "data") pool_store).1.1
     = Err (errorString "connection refused")
  /\ map method_of
       (run (refusing SetHardwareID) (ProvisionServer driver_1 machine_1 "data") pool_store).2
     = [GetHardware; SetHardwareID]
  /\ Unwrap (errorString "connection refused") = None
  /\ Error (errorString "connection refused") = "connection refused".
Proof. vm_compute. auto 10. Qed.

(** The message Deprovision reports when the template deletion fails is the
    one of the claim reset, the step before, which had succeeded. *)
Example DeprovisionServer_template_delete_message :
  let s := world_after store_handler (ProvisionServer driver_1 machine_1 "data") pool_store in
  option_map Error (run (refusing TemplateDelete) (DeprovisionServer driver_1 machine_1) s).1.1 =
    Some "failed to reset hardware ID for hardware-1: connection refused"
  /\ map method_of (run (refusing TemplateDelete) (DeprovisionServer driver_1 machine_1) s).2 =
       [GetHardwareWithID; DeleteWorkflow; TinkDelete; SetHardwareID; TemplateDelete]
  /\ map step_failure (run (refusing TemplateDelete) (DeprovisionServer driver_1 machine_1) s).2 =
       [None; None; None; None; Some (errorString "connection refused")].
Proof. vm_compute. auto. Qed.

(** ** Resolving the configuration *)

Example GetConfig_embedded :
  GetConfig id StdEncoding_DecodeString kubeconfig_only embedded_spec (lookup_in env_empty) =
    Ok (mkConfig "hello" "cluster" "rest config of hello" "http://os.img" "http://hegel").
Proof. reflexivity. Qed.

Example GetConfig_indirect_is_raw :
  GetConfig id StdEncoding_DecodeString kubeconfig_only indirect_spec
    (lookup_in env_with_kubeconfig) =
    Ok (mkConfig "aGVsbG8=" "cluster" "rest config of aGVsbG8=" "http://os.img" "http://hegel").
Proof. reflexivity. Qed.

(** Evaluates the failure mode of the error in the goal. *)
Ltac read_mode :=
  match goal with
  | |- context [failure_mode_of ?e] =>
      let m := eval vm_compute in (failure_mode_of e) in
      change (failure_mode_of e) with m; cbn beta iota
  end.

Section ResolverProperties.
Context {ConfigVarString RestConfig : Type}.
Variable Value : ConfigVarString -> string.
Variable DecodeString : string -> result string.
Variable RESTConfigFromKubeConfig : string -> result RestConfig.
Variable driverConfig : TinkerbellPluginSpec ConfigVarString.
Variable aa : ConfigVarString -> string -> result string.

Let embedded : string := Value (specAuthKubeconfig driverConfig).
Let resolve : result (Config RestConfig) :=
  GetConfig Value DecodeString RESTConfigFromKubeConfig driverConfig aa.

(** The configuration [GetConfig] returns carries the kubeconfig it
    resolved, and its client configuration is built from it. *)
Lemma GetConfig_Ok cfg :
  resolve = Ok cfg ->
  GetConfig_kubeconfig Value DecodeString driverConfig aa = Ok (cfgKubeconfig cfg)
  /\ RESTConfigFromKubeConfig (cfgKubeconfig cfg) = Ok (cfgRestConfig cfg).
Proof using Type.
  unfold resolve, GetConfig.
  destruct (GetConfig_kubeconfig _ _ _ _) as [k |]; [| done].
  destruct (aa (specClusterName _) _); [| done].
  destruct (aa (specOSImageURL _) _); [| done].
  destruct (aa (specHegelURL _) _); [| done].
  destruct (RESTConfigFromKubeConfig k) eqn:Hrest; [| done].
  intros [= <-]. done.
Qed.

(** X4: every error of [GetConfig] shows one of the three failure modes,
    and shows it rightly: bad base64 only when the embedded value is not
    empty and does not decode, a failed lookup only when a lookup failed, an
    unbuildable client configuration only when the kubeconfig was resolved
    and the builder refused it. *)
Lemma GetConfig_Err err :
  resolve = Err err ->
  match failure_mode_of err with
  | Some BadBase64 =>
      embedded <> EmptyString /\ exists cause, DecodeString embedded = Err cause
  | Some LookupFailed =>
      exists configVar envVarName cause, aa configVar envVarName = Err cause
  | Some ClientConfigFailed =>
      exists kubeconfig cause,
        GetConfig_kubeconfig Value DecodeString driverConfig aa = Ok kubeconfig
        /\ RESTConfigFromKubeConfig kubeconfig = Err cause
  | None => False
  end.
Proof using Type.
  unfold resolve, GetConfig.
  destruct (GetConfig_kubeconfig _ _ _ _) as [k | err0] eqn:Hk.
  - destruct (aa (specClusterName _) _) eqn:?; [| intros [= <-]; read_mode; eauto].
    destruct (aa (specOSImageURL _) _) eqn:?; [| intros [= <-]; read_mode; eauto].
    destruct (aa (specHegelURL _) _) eqn:?; [| intros [= <-]; read_mode; eauto].
    destruct (RESTConfigFromKubeConfig _) eqn:?; [done | intros [= <-]; read_mode; eauto].
  - intros [= <-]. revert Hk. unfold GetConfig_kubeconfig. fold embedded.
    destruct (String.eqb embedded EmptyString) eqn:Hemb; cbn [negb].
    + destruct (aa (specAuthKubeconfig _) _) eqn:?; [done | intros [= <-]; read_mode; eauto].
    + apply String.eqb_neq in Hemb.
      destruct (DecodeString embedded) eqn:?; [done | intros [= <-]; read_mode; eauto].
Qed.
End ResolverProperties.

(** C6: an embedded kubeconfig that is valid base64 is resolved to its
    decoded bytes; one that is not fails with the error of the decoding
    under the message of the embedded path; an empty one is resolved to the
    raw value of the lookup under TINK_KUBECONFIG, and the decoder plays no
    part; and the failure mode (bad base64, failed lookup, client
    configuration not buildable) can be read off the returned error. *)
Theorem GetConfig_credential {ConfigVarString RestConfig : Type}
    (Value : ConfigVarString -> string) (DecodeString : string -> result string)
    (RESTConfigFromKubeConfig : string -> result RestConfig)
    (driverConfig : TinkerbellPluginSpec ConfigVarString)
    (aa : ConfigVarString -> string -> result string) :
  let embedded := Value (specAuthKubeconfig driverConfig) in
  let resolve := GetConfig Value DecodeString RESTConfigFromKubeConfig driverConfig aa in
  (forall val,
      embedded <> EmptyString -> DecodeString embedded = Ok val ->
      GetConfig_kubeconfig Value DecodeString driverConfig aa = Ok val
      /\ forall cfg, resolve = Ok cfg ->
           cfgKubeconfig cfg = val /\ RESTConfigFromKubeConfig val = Ok (cfgRestConfig cfg))
  /\ (forall cause,
      embedded <> EmptyString -> DecodeString embedded = Err cause ->
      resolve = Err (fmt_Errorf failed_to_decode_base64 cause)
      /\ failure_mode_of (fmt_Errorf failed_to_decode_base64 cause) = Some BadBase64)
  /\ (forall raw,
      embedded = EmptyString -> aa (specAuthKubeconfig driverConfig) "TINK_KUBECONFIG" = Ok raw ->
      GetConfig_kubeconfig Value DecodeString driverConfig aa = Ok raw
      /\ (forall cfg, resolve = Ok cfg ->
            cfgKubeconfig cfg = raw /\ RESTConfigFromKubeConfig raw = Ok (cfgRestConfig cfg))
      /\ forall DecodeString',
           GetConfig Value DecodeString' RESTConfigFromKubeConfig driverConfig aa = resolve)
  /\ (forall cause,
      embedded = EmptyString -> aa (specAuthKubeconfig driverConfig) "TINK_KUBECONFIG" = Err cause ->
      resolve = Err (fmt_Errorf (failed_to_get_value "kubeconfig") cause)
      /\ failure_mode_of (fmt_Errorf (failed_to_get_value "kubeconfig") cause)
         = Some LookupFailed)
  /\ (forall kubeconfig clusterName osImageURL hegelURL cause,
      GetConfig_kubeconfig Value DecodeString driverConfig aa = Ok kubeconfig ->
      aa (specClusterName driverConfig) "CLUSTER_NAME" = Ok clusterName ->
      aa (specOSImageURL driverConfig) "OS_IMAGE_URL" = Ok osImageURL ->
      aa (specHegelURL driverConfig) "HEGEL_URL" = Ok hegelURL ->
      RESTConfigFromKubeConfig kubeconfig = Err cause ->
      resolve = Err (fmt_Errorf failed_to_decode_kubeconfig cause)
      /\ failure_mode_of (fmt_Errorf failed_to_decode_kubeconfig cause)
         = Some ClientConfigFailed).
Proof.
  intros embedded resolve.
  assert (Hdirect : embedded <> EmptyString ->
            GetConfig_kubeconfig Value DecodeString driverConfig aa =
              match DecodeString embedded with
              | Ok val => Ok val
              | Err err => Err (fmt_Errorf failed_to_decode_base64 err)
              end).
  { intros Hne%String.eqb_neq. unfold GetConfig_kubeconfig. fold embedded.
    by rewrite Hne. }
  assert (Hindirect : forall D, embedded = EmptyString ->
            GetConfig_kubeconfig Value D driverConfig aa =
              match aa (specAuthKubeconfig driverConfig) "TINK_KUBECONFIG" with
              | Ok v => Ok v
              | Err err => Err (fmt_Errorf (failed_to_get_value "kubeconfig") err)
              end).
  { intros D He. unfold GetConfig_kubeconfig. fold embedded. by rewrite He. }
  repeat apply conj.
  - intros val Hne Hdec.
    assert (Hk := Hdirect Hne). rewrite Hdec in Hk. split; [done |].
    intros cfg [Hk' Hrest]%GetConfig_Ok. rewrite Hk in Hk'. by injection Hk' as ->.
  - intros cause Hne Hdec.
    assert (Hk := Hdirect Hne). rewrite Hdec in Hk.
    split; [| reflexivity]. unfold resolve, GetConfig. by rewrite Hk.
  - intros raw He Hlookup.
    assert (Hk := Hindirect DecodeString He). rewrite Hlookup in Hk.
    split; [done |]. split.
    + intros cfg [Hk' Hrest]%GetConfig_Ok. rewrite Hk in Hk'. by injection Hk' as ->.
    + intros D. unfold resolve, GetConfig. by rewrite (Hindirect D He), Hlookup, Hk.
  - intros cause He Hlookup.
    assert (Hk := Hindirect DecodeString He). rewrite Hlookup in Hk.
    split; [| reflexivity]. unfold resolve, GetConfig. by rewrite Hk.
  - intros kubeconfig clusterName osImageURL hegelURL cause Hk Hc Ho Hh Hrest.
    split; [| reflexivity]. unfold resolve, GetConfig. by rewrite Hk, Hc, Ho, Hh, Hrest.
Qed.

Lemma GetConfig_credential_witness :
  GetConfig_kubeconfig id StdEncoding_DecodeString embedded_spec (lookup_in env_empty)
    = Ok "hello"
  /\ GetConfig id StdEncoding_DecodeString kubeconfig_only broken_spec (lookup_in env_empty)
     = Err (fmt_Errorf failed_to_decode_base64 (errorString "illegal base64 data"))
  /\ GetConfig_kubeconfig id StdEncoding_DecodeString indirect_spec
       (lookup_in env_with_kubeconfig) = Ok "aGVsbG8="
  /\ GetConfig id StdEncoding_DecodeString kubeconfig_only indirect_spec (lookup_in env_empty)
     = Err (fmt_Errorf (failed_to_get_value "kubeconfig") (errorString "value not found"))
  /\ GetConfig id StdEncoding_DecodeString kubeconfig_only indirect_spec (lookup_in env_blank)
     = Err (fmt_Errorf failed_to_decode_kubeconfig (errorString "empty kubeconfig")).
Proof.
  repeat apply conj.
  - destruct (GetConfig_credential id StdEncoding_DecodeString kubeconfig_only embedded_spec
                (lookup_in env_empty)) as (Hvalid & _).
    apply (Hvalid "hello"); [discriminate | reflexivity].
  - destruct (GetConfig_credential id StdEncoding_DecodeString kubeconfig_only broken_spec
                (lookup_in env_empty)) as (_ & Hinvalid & _).
    apply (Hinvalid (errorString "illegal base64 data")); [discriminate | reflexivity].
  - destruct (GetConfig_credential id StdEncoding_DecodeString kubeconfig_only indirect_spec
                (lookup_in env_with_kubeconfig)) as (_ & _ & Hraw & _).
    apply (Hraw "aGVsbG8="); reflexivity.
  - destruct (GetConfig_credential id StdEncoding_DecodeString kubeconfig_only indirect_spec
                (lookup_in env_empty)) as (_ & _ & _ & Hlookup & _).
    apply (Hlookup (errorString "value not found")); reflexivity.
  - destruct (GetConfig_credential id StdEncoding_DecodeString kubeconfig_only indirect_spec
                (lookup_in env_blank)) as (_ & _ & _ & _ & Hclient).
    apply (Hclient EmptyString "cluster" "http://os.img" "http://hegel"
             (errorString "empty kubeconfig")); reflexivity.
Defined.

(** ** The store after Provision and Deprovision *)

Lemma store_GetHardwareWithID_Ok uid s hw s1 :
  store_GetHardwareWithID uid s = (Ok hw, s1) ->
  s1 = s /\ hwID hw = uid /\ exists k, hardwares s !! k = Some hw.
Proof.
  unfold store_GetHardwareWithID.
  destruct (list_find _ _) as [[i [k hw']] |] eqn:Hfind; [| done].
  intros [= -> <-].
  apply list_find_Some in Hfind as (Hi & Hid & _).
  split; [done |]. split; [done |].
  exists k. apply elem_of_map_to_list. by eapply list_elem_of_lookup_2.
Qed.


Lemma store_GetHardwareWithID_found uid s k hw :
  hardwares s !! k = Some hw -> hwID hw = uid ->
  exists hw', store_GetHardwareWithID uid s = (Ok hw', s).
Proof.
  intros Hk Hid. unfold store_GetHardwareWithID.
  destruct (list_find _ _) as [[i [k' hw']] |] eqn:Hfind; [by eexists |].
  apply list_find_None in Hfind.
  apply elem_of_map_to_list in Hk.
  rewrite Forall_forall in Hfind. by destruct (Hfind _ Hk).
Qed.

(** Splits on the lookup that decides the answer in [H]. *)
Ltac on_lookup H :=
  cbn [hardwares templates workflows] in H;
  match type of H with
  | context [match ?m !! ?k with _ => _ end] => destruct (m !! k) eqn:?
  end;
  simplify_eq.

(** Turns the answers of the store in the context into facts about the
    stores and objects involved. *)
Ltac store_facts :=
  repeat match goal with
         | H : store_handler _ _ _ = _ |- _ => cbn [store_handler] in H
         | H : store_GetHardware _ _ = _ |- _ => unfold store_GetHardware in H; on_lookup H
         | H : store_GetHardwareWithID _ _ = (Ok _, _) |- _ =>
             apply store_GetHardwareWithID_Ok in H as (-> & ? & [? ?])
         | H : store_SetHardwareID _ _ _ = _ |- _ =>
             unfold store_SetHardwareID in H; simplify_eq
         | H : store_SetHardwareUserData _ _ _ = _ |- _ =>
             unfold store_SetHardwareUserData in H; simplify_eq
         | H : store_CreateHardwareOnTinkCluster _ _ = _ |- _ =>
             unfold store_CreateHardwareOnTinkCluster in H; simplify_eq
         | H : store_TinkGet _ _ = _ |- _ => unfold store_TinkGet in H; on_lookup H
         | H : store_TinkDelete _ _ = _ |- _ => unfold store_TinkDelete in H; on_lookup H
         | H : store_CreateTemplate _ _ _ _ = _ |- _ =>
             unfold store_CreateTemplate in H; on_lookup H
         | H : store_TemplateDelete _ _ = _ |- _ =>
             unfold store_TemplateDelete in H; simplify_eq
         | H : store_CreateWorkflow _ _ _ _ = _ |- _ =>
             unfold store_CreateWorkflow in H; simplify_eq
         | H : store_DeleteWorkflow _ _ _ = _ |- _ =>
             unfold store_DeleteWorkflow in H; simplify_eq
         end.

Lemma GetServer_after_persist d meta hw hs ts ws :
  hwID hw = metaUID meta ->
  exists found,
    (run store_handler (GetServer d meta) (mkStore (<[hwKey hw := hw]> hs) ts ws)).1.1
      = Ok found
    /\ hwID (serverHardware found) = metaUID meta
    /\ ((forall k hw0, hs !! k = Some hw0 -> hwID hw0 = metaUID meta -> k = hwKey hw) ->
        found = mkServer hw).
Proof.
  intros Hid. unfold GetServer.
  destruct (store_GetHardwareWithID_found (metaUID meta)
              (mkStore (<[hwKey hw := hw]> hs) ts ws) (hwKey hw) hw) as [hw' Hfound];
    [apply lookup_insert_eq | done |].
  rewrite (run_Call_answers store_handler
             (HardwareClient_GetHardwareWithID (metaUID meta)) _ _ _ _ Hfound), run_Return.
  cbn [fst snd].
  exists (mkServer hw').
  apply store_GetHardwareWithID_Ok in Hfound as (_ & Hid' & k & Hk). cbn in Hk.
  split; [done |]. split; [done |].
  intros Hunique. f_equal.
  destruct (decide (k = hwKey hw)) as [-> | Hne].
  - rewrite lookup_insert_eq in Hk. by injection Hk.
  - rewrite lookup_insert_ne in Hk by done.
    by destruct Hne; eapply Hunique.
Qed.

(** C4, as the store has it: after a successful Provision, Get finds a
    hardware whose claim identifier is the identity's unique ID; when no
    other hardware record carried that claim identifier before, it is the
    hardware Provision returned, and its userdata is the data given. *)
Theorem ProvisionServer_then_GetServer d d' meta userdata s server s' tr :
  run store_handler (ProvisionServer d meta userdata) s = (Ok server, s', tr) ->
  exists found,
    (run store_handler (GetServer d' meta) s').1.1 = Ok found
    /\ hwID (serverHardware found) = metaUID meta
    /\ ((forall k hw, hardwares s !! k = Some hw -> hwID hw = metaUID meta ->
                      k = hwKey (serverHardware server)) ->
        found = server /\ hwUserData (serverHardware found) = userdata).
Proof.
  unfold ProvisionServer, serverName. run_cases.
  all: intros [= <- <- <-]; store_facts; cbn [hardwares templates workflows serverHardware].
  all: match goal with
       | |- context [run store_handler (GetServer ?d0 ?m)
                       (mkStore (<[hwKey ?hw := ?hw]> ?hs) ?ts ?ws)] =>
           destruct (GetServer_after_persist d0 m hw hs ts ws)
             as (found & Hget & Hid & Hsame); [done |]
       end.
  all: exists found; split; [done |]; split; [done |].
  all: intros Hunique; rewrite (Hsame Hunique); done.
Qed.

Lemma ProvisionServer_then_GetServer_witness :
  (run store_handler (GetServer driver_1 machine_1)
     (world_after store_handler (ProvisionServer driver_1 machine_1 "data") pool_store)).1.1
  = Ok (mkServer provisioned_1).
Proof.
  destruct (ProvisionServer_then_GetServer driver_1 driver_1 machine_1 "data" pool_store
              (mkServer provisioned_1)
              (run store_handler (ProvisionServer driver_1 machine_1 "data") pool_store).1.2
              (run store_handler (ProvisionServer driver_1 machine_1 "data") pool_store).2)
    as (found & Hget & _ & Hsame).
  - vm_compute. reflexivity.
  - destruct Hsame as [<- _]; [| exact Hget].
    intros k hw Hk Hid. unfold pool_store in Hk. cbn [hardwares] in Hk.
    apply lookup_insert_Some in Hk as [[_ <-] | [_ Hk]]; [discriminate Hid |].
    apply lookup_insert_Some in Hk as [[_ <-] | [_ Hk]]; [discriminate Hid |].
    by rewrite lookup_empty in Hk.
Defined.

(** C4 as the specification words it fails: [machine_1], provisioned on
    [hardware-1] before, is provisioned on [hardware-2] with the userdata
    [new]; Provision succeeds, and Get answers with [hardware-1] and the
    userdata [old]. *)
Lemma GetServer_finds_earlier_claim :
  (run store_handler (ProvisionServer driver_2 machine_1 "new") claimed_store).1.1
    = Ok (mkServer (mkHardware "hardware-2" "default" "uid-1" "new" "1"))
  /\ (run store_handler (GetServer driver_2 machine_1)
        (world_after store_handler (ProvisionServer driver_2 machine_1 "new") claimed_store)).1.1
     = Ok (mkServer (mkHardware "hardware-1" "default" "uid-1" "old" "1"))
  /\ hwUserData (mkHardware "hardware-1" "default" "uid-1" "old" "1") <> "new".
Proof.
  split; [| split].
  - vm_compute. reflexivity.
  - vm_compute. reflexivity.
  - discriminate.
Qed.





(** * Further properties of the code *)

(** ** The configuration that is resolved *)

(** X1: [GetConfig] succeeds exactly when the kubeconfig is resolved
    (decoded from a non-empty embedded value, or looked up under
    TINK_KUBECONFIG), the lookups under CLUSTER_NAME, OS_IMAGE_URL and
    HEGEL_URL succeed and the client configuration can be built from the
    kubeconfig; the configuration returned holds just these values. *)
Theorem GetConfig_succeeds_iff {ConfigVarString RestConfig : Type}
    (Value : ConfigVarString -> string) (DecodeString : string -> result string)
    (RESTConfigFromKubeConfig : string -> result RestConfig)
    (driverConfig : TinkerbellPluginSpec ConfigVarString)
    (aa : ConfigVarString -> string -> result string) (cfg : Config RestConfig) :
  GetConfig Value DecodeString RESTConfigFromKubeConfig driverConfig aa = Ok cfg
  <->
  ((Value (specAuthKubeconfig driverConfig) <> EmptyString
    /\ DecodeString (Value (specAuthKubeconfig driverConfig)) = Ok (cfgKubeconfig cfg)
    \/ Value (specAuthKubeconfig driverConfig) = EmptyString
       /\ aa (specAuthKubeconfig driverConfig) "TINK_KUBECONFIG" = Ok (cfgKubeconfig cfg))
   /\ aa (specClusterName driverConfig) "CLUSTER_NAME" = Ok (cfgClusterName cfg)
   /\ aa (specOSImageURL driverConfig) "OS_IMAGE_URL" = Ok (cfgOSImageURL cfg)
   /\ aa (specHegelURL driverConfig) "HEGEL_URL" = Ok (cfgHegelURL cfg)
   /\ RESTConfigFromKubeConfig (cfgKubeconfig cfg) = Ok (cfgRestConfig cfg)).
Proof.
  unfold GetConfig, GetConfig_kubeconfig.
  destruct (String.eqb (Value (specAuthKubeconfig driverConfig)) EmptyString) eqn:Hemb;
    cbn [negb].
  - apply String.eqb_eq in Hemb. split.
    + destruct (aa (specAuthKubeconfig _) _) as [k |]; [| done].
      destruct (aa (specClusterName _) _); [| done].
      destruct (aa (specOSImageURL _) _); [| done].
      destruct (aa (specHegelURL _) _); [| done].
      destruct (RESTConfigFromKubeConfig k) eqn:Hrest; [| done].
      intros [= <-]. cbn. auto 10.
    + intros ([[Hne _] | [_ Hk]] & Hc & Ho & Hh & Hrest); [done |].
      rewrite Hk, Hc, Ho, Hh, Hrest. by destruct cfg.
  - apply String.eqb_neq in Hemb. split.
    + destruct (DecodeString _) as [k |]; [| done].
      destruct (aa (specClusterName _) _); [| done].
      destruct (aa (specOSImageURL _) _); [| done].
      destruct (aa (specHegelURL _) _); [| done].
      destruct (RESTConfigFromKubeConfig k) eqn:Hrest; [| done].
      intros [= <-]. cbn. auto 10.
    + intros ([[_ Hk] | [He _]] & Hc & Ho & Hh & Hrest); [| done].
      rewrite Hk, Hc, Ho, Hh, Hrest. by destruct cfg.
Qed.

Lemma GetConfig_succeeds_iff_witness :
  GetConfig id StdEncoding_DecodeString kubeconfig_only indirect_spec
    (lookup_in env_with_kubeconfig)
  = Ok (mkConfig "aGVsbG8=" "cluster" "rest config of aGVsbG8=" "http://os.img" "http://hegel").
Proof.
  apply (GetConfig_succeeds_iff id StdEncoding_DecodeString kubeconfig_only indirect_spec
           (lookup_in env_with_kubeconfig)).
  cbn [cfgKubeconfig cfgClusterName cfgOSImageURL cfgHegelURL cfgRestConfig].
  split; [right; split; reflexivity |].
  repeat split; reflexivity.
Defined.

(** X2: [GetConfig] resolves the kubeconfig, the cluster name, the OS image
    URL and the metadata-service URL in this order and reports the first
    that fails, under a message that names the field; what a later lookup
    would answer plays no part. *)
Theorem GetConfig_first_failure {ConfigVarString RestConfig : Type}
    (Value : ConfigVarString -> string) (DecodeString : string -> result string)
    (RESTConfigFromKubeConfig : string -> result RestConfig)
    (driverConfig : TinkerbellPluginSpec ConfigVarString)
    (aa : ConfigVarString -> string -> result string) :
  let resolve := GetConfig Value DecodeString RESTConfigFromKubeConfig driverConfig aa in
  let kubeconfig := GetConfig_kubeconfig Value DecodeString driverConfig aa in
  (forall err, kubeconfig = Err err -> resolve = Err err)
  /\ (forall k cause,
        kubeconfig = Ok k ->
        aa (specClusterName driverConfig) "CLUSTER_NAME" = Err cause ->
        resolve = Err (fmt_Errorf (failed_to_get_value "clusterName") cause))
  /\ (forall k clusterName cause,
        kubeconfig = Ok k ->
        aa (specClusterName driverConfig) "CLUSTER_NAME" = Ok clusterName ->
        aa (specOSImageURL driverConfig) "OS_IMAGE_URL" = Err cause ->
        resolve = Err (fmt_Errorf (failed_to_get_value "OSImageURL") cause))
  /\ (forall k clusterName osImageURL cause,
        kubeconfig = Ok k ->
        aa (specClusterName driverConfig) "CLUSTER_NAME" = Ok clusterName ->
        aa (specOSImageURL driverConfig) "OS_IMAGE_URL" = Ok osImageURL ->
        aa (specHegelURL driverConfig) "HEGEL_URL" = Err cause ->
        resolve = Err (fmt_Errorf (failed_to_get_value "HegelURL") cause)).
Proof.
  intros resolve kubeconfig. subst resolve kubeconfig. unfold GetConfig.
  repeat apply conj.
  - by intros err ->.
  - by intros k cause -> ->.
  - by intros k clusterName cause -> -> ->.
  - by intros k clusterName osImageURL cause -> -> -> ->.
Qed.

Lemma GetConfig_first_failure_witness :
  GetConfig id StdEncoding_DecodeString kubeconfig_only nameless_spec (lookup_in env_empty)
    = Err (fmt_Errorf (failed_to_get_value "kubeconfig") (errorString "value not found"))
  /\ GetConfig id StdEncoding_DecodeString kubeconfig_only nameless_spec
       (lookup_in env_with_kubeconfig)
     = Err (fmt_Errorf (failed_to_get_value "clusterName") (errorString "value not found"))
  /\ GetConfig id StdEncoding_DecodeString kubeconfig_only sparse_spec (lookup_in env_empty)
     = Err (fmt_Errorf (failed_to_get_value "OSImageURL") (errorString "value not found"))
  /\ GetConfig id StdEncoding_DecodeString kubeconfig_only hegelless_spec (lookup_in env_empty)
     = Err (fmt_Errorf (failed_to_get_value "HegelURL") (errorString "value not found")).
Proof.
  repeat apply conj.
  - destruct (GetConfig_first_failure id StdEncoding_DecodeString kubeconfig_only
                nameless_spec (lookup_in env_empty)) as (Hfirst & _).
    apply Hfirst. reflexivity.
  - destruct (GetConfig_first_failure id StdEncoding_DecodeString kubeconfig_only
                nameless_spec (lookup_in env_with_kubeconfig)) as (_ & Hcluster & _).
    apply (Hcluster "aGVsbG8="); reflexivity.
  - destruct (GetConfig_first_failure id StdEncoding_DecodeString kubeconfig_only
                sparse_spec (lookup_in env_empty)) as (_ & _ & Himage & _).
    apply (Himage "hello" "cluster"); reflexivity.
  - destruct (GetConfig_first_failure id StdEncoding_DecodeString kubeconfig_only
                hegelless_spec (lookup_in env_empty)) as (_ & _ & _ & Hhegel).
    apply (Hhegel "hello" "cluster" "http://os.img"); reflexivity.
Defined.

(** X3: with a kubeconfig embedded, [GetConfig] never asks the lookup for
    the kubeconfig: two lookups that agree on every name other than
    TINK_KUBECONFIG give the same result. *)
Theorem GetConfig_embedded_skips_lookup {ConfigVarString RestConfig : Type}
    (Value : ConfigVarString -> string) (DecodeString : string -> result string)
    (RESTConfigFromKubeConfig : string -> result RestConfig)
    (driverConfig : TinkerbellPluginSpec ConfigVarString)
    (aa aa' : ConfigVarString -> string -> result string) :
  Value (specAuthKubeconfig driverConfig) <> EmptyString ->
  (forall configVar envVarName,
      envVarName <> "TINK_KUBECONFIG" -> aa configVar envVarName = aa' configVar envVarName) ->
  GetConfig Value DecodeString RESTConfigFromKubeConfig driverConfig aa
  = GetConfig Value DecodeString RESTConfigFromKubeConfig driverConfig aa'.
Proof.
  intros Hne%String.eqb_neq Hagree. unfold GetConfig, GetConfig_kubeconfig.
  rewrite Hne. cbn [negb].
  by rewrite !Hagree.
Qed.

Lemma GetConfig_embedded_skips_lookup_witness :
  GetConfig id StdEncoding_DecodeString kubeconfig_only embedded_spec (lookup_in env_empty)
  = GetConfig id StdEncoding_DecodeString kubeconfig_only embedded_spec
      (lookup_in env_with_kubeconfig).
Proof.
  apply GetConfig_embedded_skips_lookup.
  - discriminate.
  - intros configVar envVarName Hname%String.eqb_neq.
    unfold lookup_in, env_empty, env_with_kubeconfig. by rewrite Hname.
Defined.

Lemma GetConfig_Err_witness :
  "not base64!" <> EmptyString
  /\ exists cause, StdEncoding_DecodeString "not base64!" = Err cause.
Proof.
  exact (GetConfig_Err id StdEncoding_DecodeString kubeconfig_only broken_spec
           (lookup_in env_empty)
           (fmt_Errorf failed_to_decode_base64 (errorString "illegal base64 data"))
           eq_refl).
Defined.

(** ** The calls the driver makes *)

(** X5: whatever the collaborators answer, Provision calls no method
    twice, makes at most seven calls, and none of them locates hardware by
    claim or deletes anything. *)
Theorem ProvisionServer_calls {W : Type} (h : handler W) d meta userdata w :
  let methods := map method_of (run h (ProvisionServer d meta userdata) w).2 in
  NoDup methods
  /\ length methods <= 7
  /\ Forall (fun m => m ∉ not_for_provision) methods.
Proof.
  unfold ProvisionServer, serverName. run_cases.
  all: cbn; split; [| split; [lia |]].
  all: first [ apply NoDup_ListNoDup; repeat constructor; cbn; intuition discriminate
             | repeat constructor; unfold not_for_provision;
               intros Hin; repeat (apply elem_of_cons in Hin as [Hin | Hin]; [discriminate |]);
               by apply elem_of_nil in Hin ].
Qed.

(** X6: whatever the collaborators answer, Deprovision calls no method
    twice, makes at most five calls, and none of them fetches hardware by
    reference, attaches userdata, or looks up or creates an object. *)
Theorem DeprovisionServer_calls {W : Type} (h : handler W) d meta w :
  let methods := map method_of (run h (DeprovisionServer d meta) w).2 in
  NoDup methods
  /\ length methods <= 5
  /\ Forall (fun m => m ∉ not_for_deprovision) methods.
Proof.
  unfold DeprovisionServer. run_cases.
  all: cbn; split; [| split; [lia |]].
  all: first [ apply NoDup_ListNoDup; repeat constructor; cbn; intuition discriminate
             | repeat constructor; unfold not_for_deprovision;
               intros Hin; repeat (apply elem_of_cons in Hin as [Hin | Hin]; [discriminate |]);
               by apply elem_of_nil in Hin ].
Qed.

(** ** Get and Deprovision *)

(** X7: when Get finds no hardware for a machine, Deprovision of that
    machine, from the same world, returns the error Get returns, unchanged,
    and does what Get does and no more: the one fetch by claim. *)
Theorem DeprovisionServer_of_unfound {W : Type} (h : handler W) d d' meta w err :
  (run h (GetServer d meta) w).1.1 = Err err ->
  run h (DeprovisionServer d' meta) w =
    (Some err, (run h (GetServer d meta) w).1.2, (run h (GetServer d meta) w).2).
Proof.
  unfold GetServer, DeprovisionServer. rewrite !run_Call.
  destruct (h _ (HardwareClient_GetHardwareWithID (metaUID meta)) w) as [[hw | e] w1];
    cbn [fst snd]; rewrite ?run_Return; cbn [fst snd].
  - discriminate.
  - by intros [= ->].
Qed.

Lemma DeprovisionServer_of_unfound_witness :
  run store_handler (DeprovisionServer driver_2 machine_1) pool_store =
    (Some (NotFound "instance not found"), pool_store,
     [Event (HardwareClient_GetHardwareWithID "uid-1") (Err (NotFound "instance not found"))]).
Proof.
  apply (DeprovisionServer_of_unfound store_handler driver_1 driver_2 machine_1 pool_store).
  reflexivity.
Defined.

(** X8: when Get finds a server, Deprovision, from the same world, locates
    the same hardware and goes on to delete the workflow named after it,
    [<server name>-workflow], in the server's namespace. *)
Theorem DeprovisionServer_of_found {W : Type} (h : handler W) d d' meta w server :
  (run h (GetServer d meta) w).1.1 = Ok server ->
  exists answer rest,
    (run h (DeprovisionServer d' meta) w).2 =
      Event (HardwareClient_GetHardwareWithID (metaUID meta)) (Ok (serverHardware server))
      :: Event (WorkflowClient_DeleteWorkflow (serverName server +:+ "-workflow")
                  (hwNamespace (serverHardware server))) answer
      :: rest.
Proof.
  unfold GetServer. rewrite run_Call.
  destruct (h _ (HardwareClient_GetHardwareWithID (metaUID meta)) w) as [[hw | e] w1] eqn:E;
    cbn [fst snd]; rewrite run_Return; cbn [fst snd]; [| discriminate].
  intros [= <-]. unfold DeprovisionServer, serverName. cbn [serverHardware].
  rewrite (run_Call_answers h _ _ _ _ _ E).
  rewrite run_Call.
  destruct (run h _ _) as [[r w2] rest].
  by eexists _, _.
Qed.

Lemma DeprovisionServer_of_found_witness :
  exists answer rest,
    (run store_handler (DeprovisionServer driver_2 machine_1) provisioned_store).2 =
      Event (HardwareClient_GetHardwareWithID "uid-1") (Ok provisioned_1)
      :: Event (WorkflowClient_DeleteWorkflow "hardware-1-workflow" "default") answer
      :: rest.
Proof.
  apply (DeprovisionServer_of_found store_handler driver_1 driver_2 machine_1
           provisioned_store (mkServer provisioned_1)).
  vm_compute. reflexivity.
Defined.

(** ** The message of a failed template deletion *)

(** X9: a template deletion that fails is reported by Deprovision under
    the message of the claim reset: the error it returns is the one a failed
    claim reset with the same cause returns, provided the reset leaves the
    hardware's name as it is. *)
Theorem DeprovisionServer_template_delete_reported_as_reset {W W' : Type}
    (h : handler W) (h' : handler W') d d' meta w w' hw hw' cause w1 w2 w3 w4 w5
    w1' w2' w3' w4' :
  answers h (HardwareClient_GetHardwareWithID (metaUID meta)) w (Ok hw) w1 ->
  answers h (WorkflowClient_DeleteWorkflow (hwName hw +:+ "-workflow") (hwNamespace hw))
    w1 None w2 ->
  answers h (TinkClient_Delete hw) w2 None w3 ->
  answers h (HardwareClient_SetHardwareID hw EmptyString) w3 (Ok hw') w4 ->
  answers h (TemplateClient_Delete (mkNamespacedName (metaName meta) "tink-stack")) w4
    (Some cause) w5 ->
  answers h' (HardwareClient_GetHardwareWithID (metaUID meta)) w' (Ok hw) w1' ->
  answers h' (WorkflowClient_DeleteWorkflow (hwName hw +:+ "-workflow") (hwNamespace hw))
    w1' None w2' ->
  answers h' (TinkClient_Delete hw) w2' None w3' ->
  answers h' (HardwareClient_SetHardwareID hw EmptyString) w3' (Err cause) w4' ->
  hwName hw' = hwName hw ->
  (run h (DeprovisionServer d meta) w).1.1 =
    Some (fmt_Errorf ("failed to reset hardware ID for " +:+ hwName hw) cause)
  /\ (run h (DeprovisionServer d meta) w).1.1 = (run h' (DeprovisionServer d' meta) w').1.1
  /\ map method_of (run h (DeprovisionServer d meta) w).2 =
       [GetHardwareWithID; DeleteWorkflow; TinkDelete; SetHardwareID; TemplateDelete]
  /\ map method_of (run h' (DeprovisionServer d' meta) w').2 =
       [GetHardwareWithID; DeleteWorkflow; TinkDelete; SetHardwareID].
Proof.
  unfold answers. intros H1 H2 H3 H4 H5 H1' H2' H3' H4' Hname.
  unfold DeprovisionServer.
  rewrite (run_Call_answers h _ _ _ _ _ H1), (run_Call_answers h _ _ _ _ _ H2),
    (run_Call_answers h _ _ _ _ _ H3), (run_Call_answers h _ _ _ _ _ H4),
    (run_Call_answers h _ _ _ _ _ H5).
  rewrite (run_Call_answers h' _ _ _ _ _ H1'), (run_Call_answers h' _ _ _ _ _ H2'),
    (run_Call_answers h' _ _ _ _ _ H3'), (run_Call_answers h' _ _ _ _ _ H4').
  rewrite !run_Return. cbn. by rewrite Hname.
Qed.

Lemma DeprovisionServer_template_delete_reported_as_reset_witness :
  (run (refusing TemplateDelete) (DeprovisionServer driver_1 machine_1) provisioned_store).1.1
  = (run (refusing SetHardwareID) (DeprovisionServer driver_1 machine_1) provisioned_store).1.1.
Proof.
  eapply (DeprovisionServer_template_delete_reported_as_reset
            (refusing TemplateDelete) (refusing SetHardwareID) driver_1 driver_1 machine_1
            provisioned_store provisioned_store provisioned_1
            (mkHardware "hardware-1" "default" EmptyString "data" "1")
            (errorString "connection refused")).
  all: try (vm_compute; reflexivity).
Defined.

(** ** What the caller can tell from the error *)

(** X10: the wrapping the driver adds keeps the cause recognisable: when a
    step of Provision or Deprovision fails, the error returned is a
    not-found error exactly when the cause is. *)
Theorem step_failure_keeps_not_found {W : Type} (h : handler W) d meta userdata w :
  (forall pre ev post cause reported,
      (run h (ProvisionServer d meta userdata) w).2 = pre ++ ev :: post ->
      step_failure ev = Some cause ->
      (run h (ProvisionServer d meta userdata) w).1.1 = Err reported ->
      IsNotFound reported = IsNotFound cause)
  /\ (forall pre ev post cause reported,
      (run h (DeprovisionServer d meta) w).2 = pre ++ ev :: post ->
      step_failure ev = Some cause ->
      (run h (DeprovisionServer d meta) w).1.1 = Some reported ->
      IsNotFound reported = IsNotFound cause).
Proof.
  split.
  - unfold ProvisionServer, serverName. run_cases.
    all: intros pre ev post cause reported H Hfail Hret; each_position H; failed_here Hfail.
    all: injection Hret as <-; reflexivity.
  - unfold DeprovisionServer. run_cases.
    all: intros pre ev post cause reported H Hfail Hret; each_position H; failed_here Hfail.
    all: injection Hret as <-; reflexivity.
Qed.

Lemma step_failure_keeps_not_found_witness :
  IsNotFound (NotFound "hardware not found") = IsNotFound (NotFound "hardware not found")
  /\ IsNotFound (fmt_Errorf "failed to delete hardware hardware-1"
                   (errorString "connection refused"))
     = IsNotFound (errorString "connection refused").
Proof.
  split.
  - destruct (step_failure_keeps_not_found store_handler driver_1 machine_1 "data" empty_store)
      as [Hprovision _].
    apply (Hprovision []
             (Event (HardwareClient_GetHardware (HardwareRef driver_1))
                (Err (NotFound "hardware not found"))) []); reflexivity.
  - destruct (step_failure_keeps_not_found (refusing TinkDelete) driver_1 machine_1 "data"
                provisioned_store) as [_ Hdeprovision].
    apply (Hdeprovision
             [Event (HardwareClient_GetHardwareWithID "uid-1") (Ok provisioned_1);
              Event (WorkflowClient_DeleteWorkflow "hardware-1-workflow" "default") None]
             (Event (TinkClient_Delete provisioned_1)
                (Some (errorString "connection refused"))) []);
      vm_compute; reflexivity.
Defined.

(** ** Building the driver *)

Section ConstructorProperties.
Context {ConfigVarString RestConfig Client MetadataConfig MetadataClientT : Type}.
Context {HardwareClientT WorkflowClientT TemplateClientT : Type}.
Variable Value : ConfigVarString -> string.
Variable ctrlruntimeclient_New : RestConfig -> result Client.
Variable config_GetConfig : result RestConfig.
Variable NewMetadataClient : MetadataConfig -> result MetadataClientT.
Variable NewHardwareClient : Client -> Client -> HardwareClientT.
Variable NewWorkflowClient : Client -> WorkflowClientT.
Variable NewTemplateClient : Client -> TemplateClientT.

Let build :=
  NewTinkerbellDriver Value ctrlruntimeclient_New config_GetConfig NewMetadataClient
    NewHardwareClient NewWorkflowClient NewTemplateClient.

(** X11: [NewTinkerbellDriver] builds the client of the Tinkerbell
    cluster, reads the configuration of the controller's own cluster, builds
    its client and then the metadata client, and reports the first of these
    that fails: the first three under a message of their own, the metadata
    client's error as it is. *)
Theorem NewTinkerbellDriver_first_failure mdConfig tinkConfig tinkSpec :
  (forall cause,
      ctrlruntimeclient_New (cfgRestConfig tinkConfig) = Err cause ->
      build mdConfig tinkConfig tinkSpec = Err (fmt_Errorf "failed to create k8s client" cause))
  /\ (forall tinkClient cause,
      ctrlruntimeclient_New (cfgRestConfig tinkConfig) = Ok tinkClient ->
      config_GetConfig = Err cause ->
      build mdConfig tinkConfig tinkSpec
        = Err (fmt_Errorf "failed to get Kubernetes config" cause))
  /\ (forall tinkClient cfg cause,
      ctrlruntimeclient_New (cfgRestConfig tinkConfig) = Ok tinkClient ->
      config_GetConfig = Ok cfg ->
      ctrlruntimeclient_New cfg = Err cause ->
      build mdConfig tinkConfig tinkSpec
        = Err (fmt_Errorf "failed to create Kubernetes client" cause))
  /\ (forall tinkClient cfg k8sClient cause,
      ctrlruntimeclient_New (cfgRestConfig tinkConfig) = Ok tinkClient ->
      config_GetConfig = Ok cfg ->
      ctrlruntimeclient_New cfg = Ok k8sClient ->
      NewMetadataClient mdConfig = Err cause ->
      build mdConfig tinkConfig tinkSpec = Err cause).
Proof using Type.
  unfold build, NewTinkerbellDriver. repeat apply conj.
  - intros cause H1. by rewrite H1.
  - intros tinkClient cause H1 H2. by rewrite H1, H2.
  - intros tinkClient cfg cause H1 H2 H3. by rewrite H1, H2, H3.
  - intros tinkClient cfg k8sClient cause H1 H2 H3 H4. by rewrite H1, H2, H3, H4.
Qed.

(** X12: [NewTinkerbellDriver] succeeds exactly when the two clients, the
    configuration of the controller's cluster and the metadata client can be
    built.  The driver then holds the literal values of the specification's
    cluster name, OS image URL and metadata-service URL and its hardware
    reference; its workflow and template clients are built on the client of
    the Tinkerbell cluster, its hardware client on the controller's cluster
    and the Tinkerbell cluster, in this order. *)
Theorem NewTinkerbellDriver_succeeds_iff mdConfig tinkConfig tinkSpec drv :
  build mdConfig tinkConfig tinkSpec = Ok drv
  <->
  (ctrlruntimeclient_New (cfgRestConfig tinkConfig) = Ok (TinkClient drv)
   /\ (exists cfg, config_GetConfig = Ok cfg /\ ctrlruntimeclient_New cfg = Ok (KubeClient drv))
   /\ NewMetadataClient mdConfig = Ok (MetadataClient drv)
   /\ HardwareClient drv = NewHardwareClient (KubeClient drv) (TinkClient drv)
   /\ WorkflowClient drv = NewWorkflowClient (TinkClient drv)
   /\ TemplateClient drv = NewTemplateClient (TinkClient drv)
   /\ settings drv =
        mkDriver (Value (specClusterName tinkSpec)) (Value (specOSImageURL tinkSpec))
          (Value (specHegelURL tinkSpec)) (specHardwareRef tinkSpec)).
Proof using Type.
  unfold build, NewTinkerbellDriver. split.
  - destruct (ctrlruntimeclient_New (cfgRestConfig tinkConfig)) as [tinkClient |]; [| done].
    destruct config_GetConfig as [cfg |]; [| done].
    destruct (ctrlruntimeclient_New cfg) as [k8sClient |] eqn:Hkube; [| done].
    destruct (NewMetadataClient mdConfig) as [mdClient |]; [| done].
    intros [= <-]. cbn. eauto 10.
  - intros (Htink & (cfg & Hcfg & Hkube) & Hmd & Hhw & Hwk & Htmpl & Hsettings).
    rewrite Htink, Hcfg, Hkube, Hmd. destruct drv. cbn in *. by subst.
Qed.
End ConstructorProperties.

Lemma NewTinkerbellDriver_first_failure_witness :
  NewTinkerbellDriver id client_of (Err (errorString "not in a cluster")) metadata_client_of
    pair id id "http://metadata"
    (mkConfig "hello" "cluster" "rest config of hello" "http://os.img" "http://hegel")
    embedded_spec
  = Err (fmt_Errorf "failed to get Kubernetes config" (errorString "not in a cluster"))
  /\ NewTinkerbellDriver id client_of (Ok "in-cluster") metadata_client_of
       pair id id EmptyString
       (mkConfig "hello" "cluster" "rest config of hello" "http://os.img" "http://hegel")
       embedded_spec
     = Err (errorString "no metadata endpoint").
Proof.
  split.
  - destruct (NewTinkerbellDriver_first_failure id client_of
                (Err (errorString "not in a cluster")) metadata_client_of pair id id
                "http://metadata"
                (mkConfig "hello" "cluster" "rest config of hello" "http://os.img"
                   "http://hegel") embedded_spec) as (_ & Hconfig & _).
    apply (Hconfig "client of rest config of hello"); reflexivity.
  - destruct (NewTinkerbellDriver_first_failure id client_of
                (Ok "in-cluster") metadata_client_of pair id id EmptyString
                (mkConfig "hello" "cluster" "rest config of hello" "http://os.img"
                   "http://hegel") embedded_spec) as (_ & _ & _ & Hmd).
    apply (Hmd "client of rest config of hello" "in-cluster" "client of in-cluster");
      reflexivity.
Defined.

Lemma NewTinkerbellDriver_succeeds_iff_witness :
  NewTinkerbellDriver id client_of (Ok "in-cluster") metadata_client_of pair id id
    "http://metadata"
    (mkConfig "hello" "cluster" "rest config of hello" "http://env.img" "http://env.hegel")
    sparse_spec
  = Ok (mkTinkerbellDriver
          (mkDriver "cluster" EmptyString EmptyString (hwKey hardware_1))
          "client of rest config of hello" "client of in-cluster"
          "metadata client of http://metadata"
          ("client of in-cluster", "client of rest config of hello")
          "client of rest config of hello" "client of rest config of hello").
Proof.
  apply (NewTinkerbellDriver_succeeds_iff id client_of (Ok "in-cluster") metadata_client_of
           pair id id "http://metadata").
  cbn. repeat split; try reflexivity.
  exists "in-cluster". split; reflexivity.
Defined.

(** ** From the specification to the calls *)


